(** * RESUME_EXTRACTOR/main.py: the ResumeAnalyzer pipeline

    A shallow embedding of [ResumeAnalyzer] (text normalisation, contact
    extraction, section segmentation, experience estimation, personality
    scoring and the assembling [parse]) together with the properties stated
    about it.

    Conventions of the embedding:
    - a Python [str] is a [string]; a character of it is the code point it
      denotes, so the texts covered are those whose code points lie below 256
      (ASCII and Latin-1).  The character classes below follow Python 3's
      [str] methods and the Unicode mode of [re] on that range;
    - a Python [int] is a [Z];
    - [None | str] is [option string];
    - a [dict] whose iteration order matters is an association list, any
      other [dict] is a [gmap] with [string] keys;
    - the two things the class obtains from outside are parameters: the
      spaCy pipeline [self.nlp] (absent when the model could not be loaded)
      and the calendar year [datetime.now().year]. *)

From Stdlib Require Import ZArith String Ascii List Bool Lia.
From Stdlib Require Import Numbers.DecimalString.
From stdpp Require Import base option list gmap strings sorting.

Local Open Scope string_scope.
Local Open Scope bool_scope.

(** ** Characters *)

Module Chr.

Definition code (c : ascii) : N := N_of_ascii c.

Definition between (lo hi : N) (c : ascii) : bool :=
  ((lo <=? code c) && (code c <=? hi))%N.

Definition one (c d : ascii) : bool := Ascii.eqb c d.

Definition newline : ascii := "010"%char.

(** [\d] of [re], Unicode category Nd: below 256 only [0-9]. *)
Definition digit (c : ascii) : bool := between 48 57 c.

Definition upper_az (c : ascii) : bool := between 65 90 c.
Definition lower_az (c : ascii) : bool := between 97 122 c.

(** [str.isalnum] on Latin-1: letters, digits and the numeric signs
    (feminine and masculine ordinal, micro sign, superscript 1 2 3,
    the vulgar fractions, the accented letters). *)
Definition alnum (c : ascii) : bool :=
  digit c || upper_az c || lower_az c
  || one c "170" || one c "178" || one c "179" || one c "181"
  || one c "185" || one c "186" || between 188 190 c
  || between 192 214 c || between 216 246 c || between 248 255 c.

(** [\w] of [re]: [alnum] or the underscore. *)
Definition word (c : ascii) : bool := alnum c || one c "_".

(** [str.isspace], which is also [\s] of [re] and what [strip] and
    [split] remove: TAB LF VT FF CR, FS GS RS US, space, NEL, NBSP. *)
Definition space (c : ascii) : bool :=
  between 9 13 c || between 28 31 c || one c " " || one c "133" || one c "160".

(** One character of [str.lower]: [A-Z] and the accented capitals
    (all of 192..222 but the multiplication sign 215) move up by 32. *)
Definition lower (c : ascii) : ascii :=
  if upper_az c || between 192 214 c || between 216 222 c
  then ascii_of_N (code c + 32)
  else c.

End Chr.

(** ** The [str] methods the analyzer calls *)

Module Str.

(** [s.lower()] *)
Fixpoint lower (s : string) : string :=
  match s with
  | EmptyString => EmptyString
  | String c s' => String (Chr.lower c) (lower s')
  end.

(** [s.lstrip()] *)
Fixpoint lstrip (s : string) : string :=
  match s with
  | EmptyString => EmptyString
  | String c s' => if Chr.space c then lstrip s' else s
  end.

(** [s.rstrip()]: a character is kept unless it is white space and
    nothing is kept after it. *)
Fixpoint rstrip (s : string) : string :=
  match s with
  | EmptyString => EmptyString
  | String c s' =>
      match rstrip s' with
      | EmptyString => if Chr.space c then EmptyString else String c EmptyString
      | r => String c r
      end
  end.

(** [s.strip()] *)
Definition strip (s : string) : string := rstrip (lstrip s).

(** [s.startswith(k)] *)
Fixpoint startswith (k s : string) : bool :=
  match k, s with
  | EmptyString, _ => true
  | String a k', String b s' => Ascii.eqb a b && startswith k' s'
  | String _ _, EmptyString => false
  end.

(** [k in s] *)
Fixpoint contains (k s : string) : bool :=
  startswith k s ||
  match s with
  | EmptyString => false
  | String _ s' => contains k s'
  end.

(** [s.count(k)] for a non-empty [k]: occurrences that do not overlap,
    counted from the left.  [skip] is the number of characters still
    covered by the occurrence found last. *)
Fixpoint count_from (k s : string) (skip : nat) : Z :=
  match s with
  | EmptyString => 0
  | String _ s' =>
      match skip with
      | S n => count_from k s' n
      | O => if startswith k s
             then 1 + count_from k s' (String.length k - 1)
             else count_from k s' 0
      end
  end%Z.

Definition count (k s : string) : Z := count_from k s 0.

(** [s.split('\n')]: never empty, the empty text gives one empty line. *)
Fixpoint split_lines (s : string) : list string :=
  match s with
  | EmptyString => [EmptyString]
  | String c s' =>
      if Chr.one Chr.newline c then EmptyString :: split_lines s'
      else match split_lines s' with
           | l :: ls => String c l :: ls
           | [] => [String c EmptyString]
           end
  end.

(** [len(s.split())]: the number of maximal runs of characters that are
    not white space.  [inside] tells whether the previous character
    belonged to such a run. *)
Fixpoint count_tokens (inside : bool) (s : string) : nat :=
  match s with
  | EmptyString => 0
  | String c s' =>
      if Chr.space c then count_tokens false s'
      else (if inside then 0 else 1) + count_tokens true s'
  end.

Definition split_len (s : string) : nat := count_tokens false s.

(** Whether the first, and the last, character of [s] is of a class. *)
Definition begins (p : ascii -> bool) (s : string) : bool :=
  match s with
  | EmptyString => false
  | String c _ => p c
  end.

Fixpoint ends (p : ascii -> bool) (s : string) : bool :=
  match s with
  | EmptyString => false
  | String c EmptyString => p c
  | String _ s' => ends p s'
  end.

(** [bool(s)]: a text is true when it is not empty. *)
Definition nonempty (s : string) : bool :=
  match s with
  | EmptyString => false
  | String _ _ => true
  end.

(** [s[:n]] *)
Fixpoint take (n : nat) (s : string) : string :=
  match n, s with
  | S n', String c s' => String c (take n' s')
  | _, _ => EmptyString
  end.

(** [int(s)] on a text of decimal digits. *)
Definition int (s : string) : Z :=
  fold_left (fun acc c => acc * 10 + Z.of_N (Chr.code c - 48))%Z
            (list_ascii_of_string s) 0%Z.

(** [str(n)], as an f-string prints an [int]. *)
Definition of_int (n : Z) : string := NilZero.string_of_int (Z.to_int n).

End Str.

(** ** The fragment of [re] the three patterns are written in

    A backtracking matcher in continuation-passing style: alternatives are
    tried from left to right, repetitions and options are greedy, and the
    first way to complete the match wins, as in [re].  The matcher carries
    the character before the current position, which [\b] needs. *)

Module Re.

Inductive regex : Type :=
| Cls (p : ascii -> bool)                        (* one character of a class *)
| Rep (p : ascii -> bool) (lo : nat) (hi : option nat) (* class{lo,hi}, greedy *)
| Cat (r1 r2 : regex)                            (* r1 r2 *)
| Alt (r1 r2 : regex)                            (* r1|r2 *)
| Opt (r : regex)                                (* r? *)
| Grp (r : regex)                                (* (r), the capturing group *)
| Bnd.                                           (* \b *)

Definition cont (A : Type) : Type :=
  option ascii -> string -> option string -> option A.

Definition head (s : string) : option ascii :=
  match s with
  | EmptyString => None
  | String c _ => Some c
  end.

Definition is_word (c : option ascii) : bool :=
  match c with
  | Some c => Chr.word c
  | None => false
  end.

(** Greedy repetition of a class: one more character first, and only if
    the rest of the pattern fails after it, stop here (when [lo] is
    reached). *)
Fixpoint rep {A} (p : ascii -> bool) (lo : nat) (hi : option nat)
         (prev : option ascii) (s : string) (g : option string)
         (k : cont A) {struct s} : option A :=
  let stop := match lo with O => k prev s g | S _ => None end in
  let more := match hi with Some O => false | _ => true end in
  match s with
  | String c s' =>
      if more && p c then
        match rep p (Nat.pred lo) (Nat.pred <$> hi) (Some c) s' g k with
        | Some x => Some x
        | None => stop
        end
      else stop
  | EmptyString => stop
  end.

Fixpoint run {A} (r : regex) (prev : option ascii) (s : string)
         (g : option string) (k : cont A) {struct r} : option A :=
  match r with
  | Cls p =>
      match s with
      | String c s' => if p c then k (Some c) s' g else None
      | EmptyString => None
      end
  | Rep p lo hi => rep p lo hi prev s g k
  | Cat r1 r2 => run r1 prev s g (fun prev' s' g' => run r2 prev' s' g' k)
  | Alt r1 r2 =>
      match run r1 prev s g k with
      | Some x => Some x
      | None => run r2 prev s g k
      end
  | Opt r1 =>
      match run r1 prev s g k with
      | Some x => Some x
      | None => k prev s g
      end
  | Grp r1 =>
      run r1 prev s g (fun prev' s' _ =>
        k prev' s' (Some (Str.take (String.length s - String.length s') s)))
  | Bnd => if xorb (is_word prev) (is_word (head s)) then k prev s g else None
  end.

(** A match anchored at the current position: the matched text
    ([group(0)]) and the text of the capturing group. *)
Definition match_here (r : regex) (prev : option ascii) (s : string)
  : option (string * option string) :=
  run r prev s None (fun _ s' g =>
    Some (Str.take (String.length s - String.length s') s, g)).

Fixpoint search_from (r : regex) (prev : option ascii) (s : string)
  : option (string * option string) :=
  match match_here r prev s with
  | Some m => Some m
  | None =>
      match s with
      | EmptyString => None
      | String c s' => search_from r (Some c) s'
      end
  end.

(** [re.search(r, s)], reduced to [group(0)] of the match found. *)
Definition search (r : regex) (s : string) : option string :=
  fst <$> search_from r None s.

(** [re.findall(r, s)] for a pattern with one capturing group: the list
    of what the GROUP matched in each successive match (the empty text
    for a group that took no part), not of the matches themselves.
    [skip] counts the characters still inside the last match. *)
Fixpoint findall_from (r : regex) (prev : option ascii) (s : string)
         (skip : nat) : list string :=
  match skip with
  | S n =>
      match s with
      | EmptyString => []
      | String c s' => findall_from r (Some c) s' n
      end
  | O =>
      match match_here r prev s with
      | Some (m, g) =>
          default EmptyString g ::
          match s with
          | EmptyString => []
          | String c s' => findall_from r (Some c) s' (String.length m - 1)
          end
      | None =>
          match s with
          | EmptyString => []
          | String c s' => findall_from r (Some c) s' 0
          end
      end
  end.

Definition findall (r : regex) (s : string) : list string :=
  findall_from r None s 0.

(** Derived forms. *)
Definition chr (c : ascii) : regex := Cls (Chr.one c).
Definition plus (p : ascii -> bool) : regex := Rep p 1 None.
Definition times (p : ascii -> bool) (n : nat) : regex := Rep p n (Some n).
Definition at_least (p : ascii -> bool) (n : nat) : regex := Rep p n None.

End Re.

(** ** [ResumeAnalyzer.__init__]: the patterns and the keyword tables *)

Local Notation "r1 >> r2" := (Re.Cat r1 r2) (at level 60, right associativity).

(** [A-Za-z0-9] *)
Definition az09 (c : ascii) : bool :=
  Chr.upper_az c || Chr.lower_az c || Chr.digit c.

(** [[A-Za-z0-9._%+-]] *)
Definition email_local (c : ascii) : bool :=
  az09 c || Chr.one c "." || Chr.one c "_" || Chr.one c "%"
  || Chr.one c "+" || Chr.one c "-".

(** [[A-Za-z0-9.-]] *)
Definition email_domain (c : ascii) : bool :=
  az09 c || Chr.one c "." || Chr.one c "-".

(** [[A-Z|a-z]]: the bar stands for itself inside the brackets. *)
Definition email_tld (c : ascii) : bool :=
  Chr.upper_az c || Chr.one c "|" || Chr.lower_az c.

(** [[-.\s]] *)
Definition phone_sep (c : ascii) : bool :=
  Chr.one c "-" || Chr.one c "." || Chr.space c.

(** [r'\b[A-Za-z0-9._%+-]+@[A-Za-z0-9.-]+\.[A-Z|a-z]{2,}\b'] *)
Definition email_pattern : Re.regex :=
  Re.Bnd >> Re.plus email_local >> Re.chr "@" >> Re.plus email_domain >>
  Re.chr "." >> Re.at_least email_tld 2 >> Re.Bnd.

(** [r'(\+?\d{1,3}[-.\s]?)?\(?\d{3}\)?[-.\s]?\d{3}[-.\s]?\d{4}'] *)
Definition phone_pattern : Re.regex :=
  Re.Opt (Re.Grp (Re.Opt (Re.chr "+") >> Re.Rep Chr.digit 1 (Some 3) >>
                  Re.Opt (Re.Cls phone_sep))) >>
  Re.Opt (Re.chr "(") >> Re.times Chr.digit 3 >> Re.Opt (Re.chr ")") >>
  Re.Opt (Re.Cls phone_sep) >> Re.times Chr.digit 3 >>
  Re.Opt (Re.Cls phone_sep) >> Re.times Chr.digit 4.

(** [r'\b(19|20)\d{2}\b'] *)
Definition year_pattern : Re.regex :=
  Re.Bnd >>
  Re.Grp (Re.Alt (Re.chr "1" >> Re.chr "9") (Re.chr "2" >> Re.chr "0")) >>
  Re.times Chr.digit 2 >> Re.Bnd.

(** The section tags, in the order the dictionary lists them. *)
Definition sections_keywords : list (string * list string) :=
  [ ("education", ["education"; "academic"; "qualifications"; "university"; "college"]);
    ("skills", ["skills"; "technologies"; "technical skills"; "competencies"; "stack"]);
    ("experience", ["experience"; "work history"; "employment"; "internships";
                    "career"; "professional experience"]);
    ("achievements", ["achievements"; "certifications"; "awards"; "honors"; "licenses"]);
    ("projects", ["projects"; "portfolio"]) ].

Definition personality_keywords : list (string * list string) :=
  [ ("Leadership", ["led"; "managed"; "spearheaded"; "oversaw"; "directed";
                    "supervised"; "guided"; "mentored"; "chief"; "head"]);
    ("Teamwork", ["collaborated"; "team"; "partnered"; "assisted"; "supported";
                  "cooperated"; "joint"; "group"; "member"]);
    ("Communication", ["presented"; "negotiated"; "authored"; "wrote";
                       "corresponded"; "spoke"; "briefed"; "explained"; "facilitated"]);
    ("Problem Solving", ["solved"; "resolved"; "debugged"; "fixed"; "troubleshot";
                         "analyzed"; "diagnosed"; "improved"; "optimized"]);
    ("Creativity", ["designed"; "created"; "innovated"; "architected"; "developed";
                    "conceptualized"; "drafted"; "originated"]);
    ("Adaptability", ["adapted"; "adjusted"; "flexible"; "versatile"; "changed";
                      "learned"; "migrated"; "transitioned"]) ].

(** ** The values a result dictionary holds *)

#[local] Set Warnings "-register-all".

Inductive value : Type :=
| VStr (s : string)
| VList (l : list string)
| VTuple (rating : string) (score : Z)
| VDict (d : gmap string value).

(** ** [clean_text] *)

(** [re.sub(r'\n+', '\n', text)]: every maximal run of line feeds becomes
    one line feed; a line feed followed by another one is dropped, the last
    of the run stays. *)
Fixpoint collapse_newlines (s : string) : string :=
  match s with
  | EmptyString => EmptyString
  | String c s' =>
      if Chr.one Chr.newline c && Str.begins (Chr.one Chr.newline) s'
      then collapse_newlines s'
      else String c (collapse_newlines s')
  end.

Definition clean_text (text : option string) : string :=
  match text with
  | None | Some EmptyString => EmptyString
  | Some t => Str.strip (collapse_newlines t)
  end.

(** ** The methods of [ResumeAnalyzer] *)

Section Analyzer.

(** [self.nlp], reduced to what [analyze_personality] takes from it: the
    lemmas of the tokens of a text that are neither stop words nor
    punctuation; [None] when the model could not be loaded. *)
Variable nlp : option (string -> list string).

(** [datetime.now().year] *)
Variable current_year : Z.

(** *** [calculate_experience_level] *)

(** Lines 80-81: the years read from the experience text. *)
Definition detected_years (experience_section_text : string) : list Z :=
  let years := Str.int <$> Re.findall year_pattern experience_section_text in
  merge_sort Z.le
    (List.filter (fun y => (1980 <=? y) && (y <=? current_year))%Z years).

(** Lines 83-85: [years[-1] - years[0]] of a list that is not empty. *)
Definition year_span (years : list Z) : Z :=
  match years with
  | [] => 0
  | y0 :: _ => List.last years y0 - y0
  end.

(** [min(years)] and [max(years)] of a list that is not empty. *)
Definition list_min (years : list Z) : option Z :=
  match years with
  | [] => None
  | y :: ys => Some (fold_left Z.min ys y)
  end.

Definition list_max (years : list Z) : option Z :=
  match years with
  | [] => None
  | y :: ys => Some (fold_left Z.max ys y)
  end.

Definition title_bump_of (text_lower : string) : bool :=
  Str.contains "senior" text_lower || Str.contains "manager" text_lower
  || Str.contains "lead" text_lower || Str.contains "architect" text_lower.

Definition fresher_keywords : list string := ["fresher"; "graduate"; "entry level"].

Definition has_fresher (text_lower : string) : bool :=
  existsb (fun k => Str.contains k text_lower) fresher_keywords.

(** Lines 88-118: the decision, once [years] and [estimated_years] are
    known. *)
Definition experience_decision (text_lower : string) (years : list Z)
           (estimated_years : Z) : string * string :=
  let title_bump := title_bump_of text_lower in
  if (estimated_years <=? 1)%Z && has_fresher text_lower then
    ("Fresher / Entry-Level", "0-1 Years (inferred)")
  else if (estimated_years =? 0)%Z && negb title_bump then
    ("Entry-Level (Uncertain)", "No dates found")
  else
    let level :=
      if (estimated_years <? 3)%Z then "Junior"
      else if (3 <=? estimated_years)%Z && (estimated_years <? 7)%Z then "Mid-Level"
      else "Senior" in
    let level :=
      if title_bump && String.eqb level "Junior" && (1 <? estimated_years)%Z
      then "Junior-Mid" else level in
    let level :=
      if title_bump && String.eqb level "Mid-Level" then "Mid-Senior" else level in
    (level,
     Str.of_int estimated_years ++ " Years detected (" ++
     from_option Str.of_int "?" (list_min years) ++ " - " ++
     from_option Str.of_int "?" (list_max years) ++ ")").

Definition calculate_experience_level (text experience_section_text : string)
  : string * string :=
  let years := detected_years experience_section_text in
  let estimated_years := year_span years in
  experience_decision (Str.lower text) years estimated_years.

(** *** [analyze_personality] *)

(** Lines 144-151. *)
Definition rating_of (score : Z) : string :=
  if (10 <=? score)%Z then "High"
  else if (4 <=? score)%Z then "Medium"
  else if (0 <? score)%Z then "Low"
  else "Not Detected".

(** [Counter(tokens)[k]] *)
Definition counter (tokens : list string) (k : string) : Z :=
  Z.of_nat (List.length (List.filter (String.eqb k) tokens)).

(** Lines 135-140: the score of one trait. *)
Definition trait_score (tokens : list string) (text : string)
           (keywords : list string) : Z :=
  fold_left (fun score k =>
               score + counter tokens k + Str.count k (Str.lower text))%Z
            keywords 0%Z.

Definition analyze_personality (text : string) : gmap string (string * Z) :=
  match nlp with
  | None =>
      fold_left (fun d '(k, _) => <[k := ("N/A", 0%Z)]> d)
                personality_keywords ∅
  | Some lemmas =>
      let tokens := lemmas (Str.lower text) in
      fold_left (fun results '(trait, keywords) =>
                   let score := trait_score tokens text keywords in
                   <[trait := (rating_of score, score)]> results)
                personality_keywords ∅
  end.

(** *** [parse] *)

(** Lines 183-187: the first of the leading five lines that can be a name. *)
Definition name_candidate (line : string) : bool :=
  let line_stripped := Str.strip line in
  (2 <? String.length line_stripped)%nat
  && negb (Str.contains "resume" (Str.lower line_stripped))
  && negb (Str.contains "@" line_stripped).

Definition find_name (lines : list string) : option string :=
  Str.strip <$> List.find name_candidate (firstn 5 lines).

(** Lines 197-201: the section a line is the header of, if any; the
    first section of the table with a keyword in the line wins. *)
Definition header_test (clean_line : string) (keywords : list string) : bool :=
  existsb (fun k => Str.contains k clean_line) keywords
  && (Str.split_len clean_line <? 5)%nat.

Definition header_of (clean_line : string) : option string :=
  fst <$> List.find (fun '(_, keywords) => header_test clean_line keywords)
                    sections_keywords.

(** The state of the loop over the lines (lines 190-192). *)
Record seg_state : Type := SegState {
  current_section : option string;
  section_text : gmap string (list string);
  full_experience_text : string
}.

Definition seg_init : seg_state :=
  {| current_section := None;
     section_text :=
       fold_left (fun d '(k, _) => <[k := []]> d) sections_keywords ∅;
     full_experience_text := "" |}.

(** One turn of the loop (lines 195-209). *)
Definition seg_step (st : seg_state) (line : string) : seg_state :=
  let clean_line := Str.lower (Str.strip line) in
  match header_of clean_line with
  | Some section =>
      {| current_section := Some section;
         section_text := section_text st;
         full_experience_text := full_experience_text st |}
  | None =>
      match current_section st with
      | None => st
      | Some cur =>
          match section_text st !! cur with
          | None => st
          | Some content =>
              match Str.strip line with
              | EmptyString => st
              | stripped =>
                  {| current_section := current_section st;
                     section_text :=
                       <[cur := (content ++ [stripped])%list]> (section_text st);
                     full_experience_text :=
                       if String.eqb cur "experience"
                       then full_experience_text st +:+ line +:+ " "
                       else full_experience_text st |}
              end
          end
      end
  end.

Definition segment (lines : list string) : seg_state :=
  fold_left seg_step lines seg_init.

(** [d[k]] for a key the dictionary holds. *)
Definition section (st : seg_state) (k : string) : list string :=
  default [] (section_text st !! k).

Definition parse_text (raw_text : string) : gmap string value :=
  let clean_raw_text := clean_text (Some raw_text) in
  let lines := Str.split_lines clean_raw_text in
  let data : gmap string value :=
    <["AI_Analysis" := VDict ∅]>
    (<["Achievements" := VList []]>
    (<["Experience" := VList []]>
    (<["Education" := VList []]>
    (<["Skills" := VList []]>
    (<["Phone" := VStr "Not Found"]>
    (<["Email" := VStr "Not Found"]>
    (<["Full Name" := VStr "Not Found"]> ∅))))))) in
  let data :=
    match Re.search email_pattern clean_raw_text with
    | Some m => <["Email" := VStr m]> data
    | None => data
    end in
  let data :=
    match Re.search phone_pattern clean_raw_text with
    | Some m => <["Phone" := VStr m]> data
    | None => data
    end in
  let data :=
    match find_name lines with
    | Some line_stripped => <["Full Name" := VStr line_stripped]> data
    | None => data
    end in
  let st := segment lines in
  let data := <["Education" := VList (section st "education")]> data in
  let data := <["Skills" := VList (section st "skills")]> data in
  let data := <["Experience" := VList (section st "experience")]> data in
  let data := <["Achievements" := VList (section st "achievements")]> data in
  let exp :=
    calculate_experience_level clean_raw_text (full_experience_text st) in
  let exp_level := fst exp in
  let exp_details := snd exp in
  let personality_traits := analyze_personality clean_raw_text in
  <["AI_Analysis" :=
      VDict (<["Personality" :=
                 VDict ((fun '(rating, score) => VTuple rating score)
                          <$> personality_traits)]>
             (<["Experience_Detail" := VStr exp_details]>
             (<["Experience_Level" := VStr exp_level]> ∅)))]> data.

(** [parse], from the result of [extract_text] on. *)
Definition parse (raw_text : option string) : gmap string value :=
  match raw_text with
  | None | Some EmptyString => {[ "Error" := VStr "Could not extract text." ]}
  | Some t => parse_text t
  end.

End Analyzer.

(** ** Reading a result *)

(** [data["AI_Analysis"][k]] *)
Definition ai_field (data : gmap string value) (k : string) : option value :=
  match data !! "AI_Analysis" with
  | Some (VDict d) => d !! k
  | _ => None
  end.

(** The résumé of the scenario. *)
Definition nl : string := String Chr.newline EmptyString.

Definition scenario : string :=
  "John Doe" +:+ nl +:+ "john@x.com" +:+ nl +:+ "555-123-4567" +:+ nl +:+
  "EXPERIENCE" +:+ nl +:+ "Led team 2015" +:+ nl +:+ "Managed project 2020".

(** ** The seniority scale *)

Definition seniority_scale : list string :=
  ["Entry-Level (Uncertain)"; "Junior"; "Junior-Mid"; "Mid-Level";
   "Mid-Senior"; "Senior"].

Fixpoint position (x : string) (l : list string) : option nat :=
  match l with
  | [] => None
  | y :: l' => if String.eqb x y then Some 0%nat else S <$> position x l'
  end.

(** [a] is a label of the scale and [b] is one that is not below it. *)
Definition not_above (a b : string) : bool :=
  match position a seniority_scale, position b seniority_scale with
  | Some i, Some j => (i <=? j)%nat
  | _, _ => false
  end.

(** The six traits. *)
Definition traits : list string := fst <$> personality_keywords.

(** ** Sections, line by line

    What the segmentation is said to do, stated for the lines one at a
    time and independently of the loop of [parse]. *)

(** The section tags. *)
Definition tags : list string := fst <$> sections_keywords.

(** The section a line is the header of, if it is one. *)
Definition header_line (line : string) : option string :=
  header_of (Str.lower (Str.strip line)).

(** The section in force after some lines: that of the last header among
    them, none before the first header. *)
Definition active_section (prefix : list string) : option string :=
  last (omap header_line prefix).

(** The section that receives line [i]: none for a header, for a line that
    is blank once stripped and for a line before the first header, otherwise
    the section in force after the lines before it. *)
Definition owner (lines : list string) (i : nat) : option string :=
  match lines !! i with
  | None => None
  | Some line =>
      match header_line line, Str.strip line with
      | Some _, _ => None
      | None, EmptyString => None
      | None, _ => active_section (take i lines)
      end
  end.

(** The indices of the lines a section receives, and their stripped texts. *)
Definition owned (lines : list string) (tag : string) : list nat :=
  filter (fun i => owner lines i = Some tag) (seq 0 (List.length lines)).

Definition content_of (lines : list string) (tag : string) : list string :=
  omap (fun i => Str.strip <$> lines !! i) (owned lines tag).

(** What the loop of [parse] maintains: after the lines seen so far the
    current section is the one in force, and the table holds, for each tag
    and for nothing else, the stripped lines that tag received. *)
Record seg_inv (lines : list string) (st : seg_state) : Prop := SegInv {
  inv_current : current_section st = active_section lines;
  inv_text : forall tag : string,
    section_text st !! tag
    = if decide (tag ∈ tags) then Some (content_of lines tag) else None
}.

(** ** Line feeds *)

(** The class of the line feed. *)
Definition is_nl : ascii -> bool := Chr.one Chr.newline.

(** Two line feeds in a row somewhere in the text. *)
Fixpoint double_newline (s : string) : bool :=
  match s with
  | EmptyString => false
  | String c s' => (is_nl c && Str.begins is_nl s') || double_newline s'
  end.

(** ** [extract_text] and the whole of [parse]

    The three things [extract_text] calls are parameters: [os.path.splitext],
    the pages [pdfplumber] reads (for each page what [extract_text()] gives,
    [None] or a text) and the paragraphs [docx] reads.  A reader gives [None]
    when anything inside the [try] raises: the text built so far is local and
    lost, and the method returns [None]. *)

Section Files.

Variable splitext : string -> string * string.
Variable pdf_pages : string -> option (list (option string)).
Variable docx_paragraphs : string -> option (list string).

(** Lines 57-60: a page adds its text and a line feed, unless it has none. *)
Definition add_page (text : string) (page_text : option string) : string :=
  match page_text with
  | Some (String _ _ as t) => text +:+ t +:+ nl
  | _ => text
  end.

(** Lines 63-64. *)
Definition add_paragraph (text para : string) : string := text +:+ para +:+ nl.

(** Line 52. *)
Definition file_ext (filepath : string) : string :=
  Str.lower (snd (splitext filepath)).

Definition extract_text (filepath : string) : option string :=
  let ext := file_ext filepath in
  if String.eqb ext ".pdf" then
    match pdf_pages filepath with
    | Some pages => Some (fold_left add_page pages "")
    | None => None
    end
  else if String.eqb ext ".docx" || String.eqb ext ".doc" then
    match docx_paragraphs filepath with
    | Some paragraphs => Some (fold_left add_paragraph paragraphs "")
    | None => None
    end
  else Some "".

Variable nlp : option (string -> list string).
Variable current_year : Z.

(** [parse], from the path on (line 158 included). *)
Definition parse_file (filepath : string) : gmap string value :=
  parse nlp current_year (extract_text filepath).

End Files.

(** ** What the dashboard takes from a result

    The parts of [ResumeApp] that compute: the look-ups with their defaults
    and the choice of colours and widths.  A look-up is [None] where the
    Python would raise, on a value of a kind [parse] never stores there. *)

(** [data.get(k, default)] for a field that holds a text. *)
Definition get_str (data : gmap string value) (k default : string)
  : option string :=
  match data !! k with
  | None => Some default
  | Some (VStr s) => Some s
  | Some _ => None
  end.

(** [self.extracted_data.get("AI_Analysis", {})] *)
Definition get_ai (data : gmap string value) : option (gmap string value) :=
  match data !! "AI_Analysis" with
  | None => Some ∅
  | Some (VDict d) => Some d
  | Some _ => None
  end.

(** Line 350. *)
Definition level_color (level : string) : string :=
  if Str.contains "Senior" level then "#27ae60"
  else if Str.contains "Mid" level then "#2980b9"
  else "#f39c12".

(** [create_exp_card], lines 341-350: the level, the detail and the colour
    the card shows. *)
Definition create_exp_card (data : gmap string value)
  : option (string * string * string) :=
  ai_data ← get_ai data;
  level ← get_str ai_data "Experience_Level" "Unknown";
  details ← get_str ai_data "Experience_Detail" "";
  Some (level, details, level_color level).

(** [create_header_card], lines 337-338: name, e-mail and phone shown. *)
Definition create_header_card (data : gmap string value)
  : option (string * string * string) :=
  name ← get_str data "Full Name" "N/A";
  email ← get_str data "Email" "N/A";
  phone ← get_str data "Phone" "N/A";
  Some (name, email, phone).

(** [create_personality_card], lines 369 and 373. *)
Definition bar_color (rating : string) : string :=
  if String.eqb rating "High" then "#2ecc71"
  else if String.eqb rating "Medium" then "#f1c40f"
  else "#ecf0f1".

Definition fill_width (rating : string) : Z :=
  if String.eqb rating "High" then 100
  else if String.eqb rating "Medium" then 60
  else 20.

(** ** Notions the further properties are stated with *)

(** A text of white space only. *)
Definition all_space (s : string) : bool :=
  forallb Chr.space (list_ascii_of_string s).

(** The labels [experience_decision] can give. *)
Definition levels : list string :=
  ["Fresher / Entry-Level"; "Entry-Level (Uncertain)"; "Junior"; "Junior-Mid";
   "Mid-Level"; "Mid-Senior"; "Senior"].

(** The ratings of a trait when the tokenizer is there, from the lowest. *)
Definition ratings : list string := ["Not Detected"; "Low"; "Medium"; "High"].

(** ** Counting the characters of a class in what a pattern matches *)

(** How many characters of [w] are of the class [q]. *)
Fixpoint count_class (q : ascii -> bool) (w : string) : nat :=
  match w with
  | EmptyString => 0
  | String c w' => (if q c then 1 else 0) + count_class q w'
  end.

(** The 256 characters. *)
Definition all_ascii : list ascii := ascii_of_nat <$> seq 0 256.

(** Every character of [p] is of [q]; no character is of both. *)
Definition subclass (p q : ascii -> bool) : bool :=
  forallb (fun c => implb (p c) (q c)) all_ascii.

Definition disjoint_class (p q : ascii -> bool) : bool :=
  forallb (fun c => negb (p c && q c)) all_ascii.

(** The least number of characters of [q] in a text [r] matches. *)
Fixpoint least (q : ascii -> bool) (r : Re.regex) : nat :=
  match r with
  | Re.Cls p => if subclass p q then 1 else 0
  | Re.Rep p lo _ => if subclass p q then lo else 0
  | Re.Cat r1 r2 => least q r1 + least q r2
  | Re.Alt r1 r2 => Nat.min (least q r1) (least q r2)
  | Re.Opt _ => 0
  | Re.Grp r1 => least q r1
  | Re.Bnd => 0
  end.

(** The greatest such number, when there is one. *)
Fixpoint most (q : ascii -> bool) (r : Re.regex) : option nat :=
  match r with
  | Re.Cls p => Some (if disjoint_class p q then 0 else 1)
  | Re.Rep p _ hi => if disjoint_class p q then Some 0 else hi
  | Re.Cat r1 r2 =>
      match most q r1, most q r2 with
      | Some a, Some b => Some (a + b)
      | _, _ => None
      end
  | Re.Alt r1 r2 =>
      match most q r1, most q r2 with
      | Some a, Some b => Some (Nat.max a b)
      | _, _ => None
      end
  | Re.Opt r1 => most q r1
  | Re.Grp r1 => most q r1
  | Re.Bnd => Some 0
  end.

(** [count_class q w] lies within the bounds of [r]. *)
Definition within (q : ascii -> bool) (r : Re.regex) (w : string) : Prop :=
  least q r <= count_class q w
  /\ forall n, most q r = Some n -> count_class q w <= n.

(** ** Headers, as they are described

    A line is a header of a section when its lowercased form holds a keyword
    of the section and has fewer than five tokens. *)
Definition said_header (line : string) (keywords : list string) : Prop :=
  (exists k, In k keywords /\ Str.contains k (Str.lower line) = true)
  /\ Str.split_len (Str.lower line) < 5.

(** A keyword that is not empty and has no white space at either end. *)
Definition keyword_ok (k : string) : bool :=
  Str.nonempty k && negb (Str.begins Chr.space k) && negb (Str.ends Chr.space k).

(** * Properties *)

(** ** The year pattern *)

Lemma take_two (a b : ascii) (s : string) :
  Str.take (String.length (String a (String b s)) - String.length s)
           (String a (String b s)) = String a (String b EmptyString).
Proof.
  cbn [String.length].
  replace (S (S (String.length s)) - String.length s)%nat with 2%nat by lia.
  reflexivity.
Qed.

(** A repetition hands its continuation the group it was given. *)
Lemma rep_keeps_group {A} (p : ascii -> bool) (s : string) :
  forall (lo : nat) (hi : option nat) (prev : option ascii)
         (g : option string) (k : Re.cont A) (x : A),
    Re.rep p lo hi prev s g k = Some x ->
    exists prev' s', k prev' s' g = Some x.
Proof.
  induction s as [|c s IH]; intros lo hi prev g k x; cbn [Re.rep].
  - destruct lo; [eauto | discriminate].
  - destruct (_ && p c).
    + destruct (Re.rep p _ _ _ s g k) eqn:Hmore.
      * intros [= ->]. eapply IH, Hmore.
      * destruct lo; [eauto | discriminate].
    + destruct lo; [eauto | discriminate].
Qed.

(** Whatever [year_pattern] matches, its group holds the century only. *)
Lemma year_group (prev : option ascii) (s m : string) (g : option string) :
  Re.match_here year_pattern prev s = Some (m, g) ->
  g = Some "19" \/ g = Some "20".
Proof.
  unfold Re.match_here, year_pattern.
  cbn [Re.run].
  destruct (xorb _ _); [|discriminate].
  destruct s as [|a [|b s]]; cbn [Re.run Re.chr].
  - discriminate.
  - destruct (Chr.one "1" a), (Chr.one "2" a); discriminate.
  - rewrite take_two. unfold Re.times. cbn [Re.run].
    assert (Hend : forall c d x,
      Re.rep Chr.digit 2 (Some 2) (Some b) s (Some (String c (String d "")))
        (fun prev' s' g' =>
           if xorb (Re.is_word prev') (Re.is_word (Re.head s'))
           then Some (Str.take (String.length (String a (String b s))
                                - String.length s') (String a (String b s)), g')
           else None) = Some x ->
      snd x = Some (String c (String d ""))).
    { intros c d x Hx. apply rep_keeps_group in Hx as (p' & s' & Hx).
      destruct (xorb _ _); [|discriminate]. by injection Hx as <-. }
    destruct (Chr.one "1" a) eqn:Ha1, (Chr.one "9" b) eqn:Hb9,
             (Chr.one "2" a) eqn:Ha2, (Chr.one "0" b) eqn:Hb0;
      repeat match goal with
        | H : Chr.one _ _ = true |- _ => apply Ascii.eqb_eq in H; subst
        end;
      try discriminate;
      repeat match goal with
        | |- context [Re.rep ?p ?lo ?hi ?pv ?t ?gr ?k] =>
            let E := fresh "E" in
            destruct (Re.rep p lo hi pv t gr k) as [[m' g']|] eqn:E;
            [apply Hend in E; cbn [snd] in E; subst g'|]
        end;
      intros [= <- <-] || discriminate; auto.
Qed.

(** So [re.findall] with this pattern lists centuries, not years. *)
Lemma findall_year_centuries (s : string) :
  forall (prev : option ascii) (skip : nat),
    Forall (fun y => y = "19" \/ y = "20")
           (Re.findall_from year_pattern prev s skip).
Proof.
  induction s as [|c s IH]; intros prev skip; cbn [Re.findall_from].
  - destruct skip; [|constructor].
    destruct (Re.match_here _ _ _) as [[m g]|] eqn:E; [|constructor].
    apply year_group in E as [-> | ->]; cbn [default from_option];
      (constructor; [auto | constructor]).
  - destruct skip; [|apply IH].
    destruct (Re.match_here _ _ _) as [[m g]|] eqn:E; [|apply IH].
    apply year_group in E as [-> | ->]; cbn [default from_option];
      (constructor; [auto | apply IH]).
Qed.

Section Experience.

Variable current_year : Z.

(** No text has a year the estimator detects. *)
Lemma detected_years_nil (experience_section_text : string) :
  detected_years current_year experience_section_text = [].
Proof.
  unfold detected_years, Re.findall.
  assert (H := findall_year_centuries experience_section_text None 0).
  induction H as [|y ys [-> | ->] _ IH]; [reflexivity| |]; cbn; apply IH.
Qed.

End Experience.


Section Results.

Variable nlp : option (string -> list string).
Variable current_year : Z.

(** C1, as the code has it: on the experience text of a résumé whose two
    detail lines mention 2015 and 2020, [re.findall] returns what the one
    capturing group of [year_pattern] matched, the centuries ["20"] and
    ["20"]; both fall below 1980, so no year is kept and the estimated
    span is 0 (the claim expects the years [2015, 2020] and the span 5). *)
Theorem C1_findall_keeps_the_century_only :
  Re.findall year_pattern "Led team 2015 Managed project 2020 " = ["20"; "20"]
  /\ detected_years current_year "Led team 2015 Managed project 2020 " = []
  /\ year_span (detected_years current_year
                  "Led team 2015 Managed project 2020 ") = 0%Z.
Proof.
  split; [reflexivity|]. rewrite detected_years_nil. split; reflexivity.
Qed.

(** C2, as the code has it: on the scenario résumé [parse] returns the
    Email ["john@x.com"], the Phone ["555-123-4567"] and an experience
    section holding both detail lines, and no title-bump keyword occurs;
    but no year is detected, so the label is ["Entry-Level (Uncertain)"]
    with the detail ["No dates found"] (the claim expects ["Mid-Level"]
    from the years [2015, 2020]). *)
Theorem C2_scenario_result :
  let data := parse nlp current_year (Some scenario) in
  data !! "Email" = Some (VStr "john@x.com")
  /\ data !! "Phone" = Some (VStr "555-123-4567")
  /\ data !! "Experience" = Some (VList ["Led team 2015"; "Managed project 2020"])
  /\ title_bump_of (Str.lower (clean_text (Some scenario))) = false
  /\ detected_years current_year
       (full_experience_text
          (segment (Str.split_lines (clean_text (Some scenario))))) = []
  /\ ai_field data "Experience_Level" = Some (VStr "Entry-Level (Uncertain)")
  /\ ai_field data "Experience_Detail" = Some (VStr "No dates found").
Proof.
  cbv zeta. repeat split; try apply detected_years_nil; vm_compute; reflexivity.
Qed.

(** C5: for a text without a fresher keyword (its title bump is then
    fixed, set or not), the labels the decision gives for the estimated
    spans 0, 2, 5 and 8 never go down on the scale Entry-Level
    (Uncertain), Junior, Junior-Mid, Mid-Level, Mid-Senior, Senior. *)
Theorem C5_labels_rise_with_the_span
        (text_lower : string) (ys0 ys2 ys5 ys8 : list Z) :
  has_fresher text_lower = false ->
  let label ys n := fst (experience_decision text_lower ys n) in
  not_above (label ys0 0%Z) (label ys2 2%Z) = true
  /\ not_above (label ys2 2%Z) (label ys5 5%Z) = true
  /\ not_above (label ys5 5%Z) (label ys8 8%Z) = true.
Proof.
  intros Hfresh. unfold experience_decision. rewrite Hfresh.
  destruct (title_bump_of text_lower); repeat split; reflexivity.
Qed.

Lemma C5_witness :
  (title_bump_of "senior developer" = true
   /\ not_above (fst (experience_decision "senior developer" [] 0%Z))
                (fst (experience_decision "senior developer" [2018; 2020]%Z 2%Z))
      = true)
  /\ (title_bump_of "developer" = false
      /\ not_above (fst (experience_decision "developer" [2015; 2020]%Z 5%Z))
                   (fst (experience_decision "developer" [2012; 2020]%Z 8%Z))
         = true).
Proof.
  split; (split; [reflexivity|]).
  - apply (C5_labels_rise_with_the_span "senior developer"
             [] [2018; 2020]%Z [] []). reflexivity.
  - apply (C5_labels_rise_with_the_span "developer"
             [] [] [2015; 2020]%Z [2012; 2020]%Z). reflexivity.
Defined.

(** C10: when the experience text gives no year (the span is then 0),
    the lowercased text has a title-bump keyword and no fresher keyword,
    the level is ["Junior"] and the detail ["0 Years detected (? - ?)"]. *)
Theorem C10_bumped_without_years (text experience_section_text : string) :
  detected_years current_year experience_section_text = [] ->
  title_bump_of (Str.lower text) = true ->
  has_fresher (Str.lower text) = false ->
  calculate_experience_level current_year text experience_section_text
  = ("Junior", "0 Years detected (? - ?)").
Proof.
  intros Hyears Hbump Hfresh.
  unfold calculate_experience_level, experience_decision.
  rewrite Hyears, Hbump, Hfresh. reflexivity.
Qed.

(** The score of a trait is a sum of counts. *)
Lemma count_from_nonneg (k s : string) :
  forall skip : nat, (0 <= Str.count_from k s skip)%Z.
Proof.
  induction s as [|c s IH]; intros skip; cbn [Str.count_from]; [lia|].
  destruct skip; [|apply IH].
  destruct (Str.startswith k _); [specialize (IH (String.length k - 1)%nat)|
                                  specialize (IH 0%nat)]; lia.
Qed.

Lemma trait_score_nonneg (tokens : list string) (text : string)
      (keywords : list string) :
  (0 <= trait_score tokens text keywords)%Z.
Proof.
  unfold trait_score.
  assert (H : forall acc, (0 <= acc)%Z ->
    (0 <= fold_left (fun score k =>
            score + counter tokens k + Str.count k (Str.lower text))%Z
          keywords acc)%Z).
  { induction keywords as [|k ks IH]; intros acc Hacc; cbn [fold_left]; [lia|].
    apply IH. unfold counter, Str.count.
    pose proof (count_from_nonneg k (Str.lower text) 0). lia. }
  apply H. lia.
Qed.

(** C6: a score is never negative, and the rating of a score is ["Not
    Detected"] at 0, ["Low"] from 1 to 3, ["Medium"] from 4 to 9 and
    ["High"] from 10 on (so 3 is Low, 4 and 9 are Medium, 10 is High);
    with the tokenizer at hand [analyze_personality] gives every trait of
    the table that rating of its combined score, next to the score. *)
Theorem C6_rating_thresholds (score : Z) :
  (0 <= score)%Z ->
  ((score = 0)%Z -> rating_of score = "Not Detected")
  /\ ((0 < score < 4)%Z -> rating_of score = "Low")
  /\ ((4 <= score < 10)%Z -> rating_of score = "Medium")
  /\ ((10 <= score)%Z -> rating_of score = "High")
  /\ rating_of 0 = "Not Detected" /\ rating_of 3 = "Low"
  /\ rating_of 4 = "Medium" /\ rating_of 9 = "Medium"
  /\ rating_of 10 = "High"
  /\ forall (lemmas : string -> list string) (text trait : string)
            (keywords : list string),
       In (trait, keywords) personality_keywords ->
       let s := trait_score (lemmas (Str.lower text)) text keywords in
       (0 <= s)%Z
       /\ analyze_personality (Some lemmas) text !! trait
          = Some (rating_of s, s).
Proof.
  intros Hscore. unfold rating_of at 1 2 3 4.
  repeat split; try reflexivity;
    try (intros; repeat case_match; (reflexivity || lia)).
  - apply trait_score_nonneg.
  - unfold analyze_personality, personality_keywords in *. cbn [fold_left].
    cbn [In] in H.
    repeat (destruct H as [[= <- <-] | H];
            [by simplify_map_eq|]).
    destruct H.
Qed.

Lemma C6_witness :
  (0 <= 7)%Z /\ ((4 <= 7 < 10)%Z -> rating_of 7 = "Medium").
Proof.
  split; [lia|]. apply (C6_rating_thresholds 7). lia.
Defined.


Lemma parse_text_no_error (raw_text : string) :
  parse_text nlp current_year raw_text !! "Error" = None.
Proof.
  unfold parse_text. cbv zeta.
  repeat case_match; by simplify_map_eq.
Qed.


(** C7: without a text ([None], or the empty text) [parse] returns the
    record whose only key is ["Error"], with the message ["Could not
    extract text."]; on every text that is not empty its result has no
    ["Error"] key. *)
Theorem C7_unreadable_document :
  parse nlp current_year None = {[ "Error" := VStr "Could not extract text." ]}
  /\ parse nlp current_year (Some "")
     = {[ "Error" := VStr "Could not extract text." ]}
  /\ forall raw_text : string,
       raw_text <> "" ->
       parse nlp current_year (Some raw_text) !! "Error" = None.
Proof.
  do 2 (split; [reflexivity|]).
  intros [|c t] Hne; [done|]. apply parse_text_no_error.
Qed.

End Results.

Lemma C7_witness :
  scenario <> ""
  /\ parse None 2024 (Some scenario) !! "Error" = None.
Proof.
  split; [discriminate|].
  apply (C7_unreadable_document None 2024). discriminate.
Defined.



(** On the years the scenario mentions the decision gives ["Mid-Level"]. *)
Lemma scenario_intended_label :
  experience_decision (Str.lower (clean_text (Some scenario)))
                      [2015; 2020]%Z (year_span [2015; 2020]%Z)
  = ("Mid-Level", "5 Years detected (2015 - 2020)").
Proof. reflexivity. Qed.



Lemma C10_witness :
  detected_years 2024 "Built things " = []
  /\ title_bump_of (Str.lower "Senior Engineer at ACME") = true
  /\ has_fresher (Str.lower "Senior Engineer at ACME") = false
  /\ calculate_experience_level 2024 "Senior Engineer at ACME" "Built things "
     = ("Junior", "0 Years detected (? - ?)").
Proof.
  do 3 (split; [reflexivity|]).
  apply C10_bumped_without_years; reflexivity.
Defined.

(** ** Section segmentation *)

Lemma filter_ext_elem {A} (P Q : A -> Prop) `{!forall x, Decision (P x)}
      `{!forall x, Decision (Q x)} (l : list A) :
  (forall x, x ∈ l -> P x <-> Q x) -> filter P l = filter Q l.
Proof.
  induction l as [|a l IH]; intros Hext; [done|].
  rewrite !filter_cons.
  rewrite IH by (intros x Hx; apply Hext; by right).
  assert (Ha : P a <-> Q a) by (apply Hext; by left).
  destruct (decide (P a)), (decide (Q a)); tauto.
Qed.

Lemma omap_ext_elem {A B} (f g : A -> option B) (l : list A) :
  (forall x, x ∈ l -> f x = g x) -> omap f l = omap g l.
Proof.
  induction l as [|a l IH]; intros Hext; [done|]. csimpl.
  rewrite (Hext a) by left.
  rewrite IH by (intros x Hx; apply Hext; by right). done.
Qed.

Lemma active_section_snoc (lines : list string) (line : string) :
  active_section (lines ++ [line])
  = match header_line line with
    | Some tag => Some tag
    | None => active_section lines
    end.
Proof.
  unfold active_section. rewrite omap_app. csimpl.
  destruct (header_line line); [apply last_snoc | by rewrite app_nil_r].
Qed.

Lemma owner_snoc_old (lines : list string) (line : string) (i : nat) :
  (i < List.length lines)%nat -> owner (lines ++ [line]) i = owner lines i.
Proof.
  intros Hi. unfold owner.
  rewrite lookup_app_l by done. by rewrite take_app_le by lia.
Qed.

Lemma owner_snoc_new (lines : list string) (line : string) :
  owner (lines ++ [line]) (List.length lines)
  = match header_line line, Str.strip line with
    | Some _, _ => None
    | None, EmptyString => None
    | None, _ => active_section lines
    end.
Proof.
  unfold owner. rewrite list_lookup_middle by done. by rewrite take_app_length.
Qed.

Lemma content_of_snoc (lines : list string) (line tag : string) :
  content_of (lines ++ [line]) tag
  = (content_of lines tag
     ++ (if decide (owner (lines ++ [line]) (List.length lines) = Some tag)
         then [Str.strip line] else []))%list.
Proof.
  unfold content_of, owned.
  rewrite length_app, Nat.add_comm. cbn [List.length Nat.add].
  rewrite seq_S, filter_app, omap_app. cbn [Nat.add]. f_equal.
  - rewrite (filter_ext_elem _ (fun i => owner lines i = Some tag)).
    + apply omap_ext_elem. intros i [_ Hi]%list_elem_of_filter.
      apply elem_of_seq in Hi. by rewrite lookup_app_l by lia.
    + intros i Hi%elem_of_seq. by rewrite owner_snoc_old by lia.
  - rewrite filter_cons, filter_nil. case_decide; [|done].
    csimpl. by rewrite list_lookup_middle.
Qed.

Lemma header_of_tag (clean_line tag : string) :
  header_of clean_line = Some tag -> tag ∈ tags.
Proof.
  unfold header_of, tags.
  destruct (List.find _ _) as [[t kws]|] eqn:Hfind; [|done].
  intros [= <-]. apply find_some in Hfind as [Hin _].
  apply list_elem_of_In in Hin. by apply (list_elem_of_fmap_2 fst) in Hin.
Qed.

Lemma active_section_tag (lines : list string) (tag : string) :
  active_section lines = Some tag -> tag ∈ tags.
Proof.
  unfold active_section. intros Hlast.
  apply last_Some in Hlast as [l' Hl'].
  assert (Hin : tag ∈ omap header_line lines) by (rewrite Hl'; set_solver).
  apply list_elem_of_omap in Hin as (line & _ & Hline).
  by apply header_of_tag in Hline.
Qed.

Lemma seg_inv_init : seg_inv [] seg_init.
Proof.
  split; [done|].
  intros tag. case_decide as Htag.
  - unfold tags in Htag. cbn in Htag.
    repeat (apply elem_of_cons in Htag as [-> | Htag]; [by vm_compute|]).
    by apply elem_of_nil in Htag.
  - unfold seg_init, sections_keywords. cbn [section_text fold_left].
    unfold tags in Htag. cbn in Htag.
    rewrite !lookup_insert_ne by set_solver. done.
Qed.

Lemma seg_inv_step (lines : list string) (st : seg_state) (line : string) :
  seg_inv lines st -> seg_inv (lines ++ [line]) (seg_step st line).
Proof.
  intros [Hcur Htext]. unfold seg_step. fold (header_line line).
  assert (Hnew := owner_snoc_new lines line).
  assert (Hnone : owner (lines ++ [line]) (List.length lines) = None ->
                  forall tag, content_of (lines ++ [line]) tag
                              = content_of lines tag).
  { intros Hnone tag. rewrite content_of_snoc, Hnone.
    rewrite (decide_False (P := None = Some tag)) by done.
    apply app_nil_r. }
  destruct (header_line line) as [tag'|] eqn:Hhead.
  - split; cbn [current_section section_text].
    + by rewrite active_section_snoc, Hhead.
    + intros tag. by rewrite Htext, Hnone.
  - destruct (current_section st) as [cur|] eqn:Hactive.
    + assert (Hcur_tag : cur ∈ tags) by by eapply active_section_tag.
      rewrite Htext, decide_True by done.
      destruct (Str.strip line) as [|c stripped] eqn:Hstrip.
      * split; [by rewrite active_section_snoc, Hhead, <- Hcur|].
        intros tag. by rewrite Htext, Hnone.
      * split; cbn [current_section section_text].
        { by rewrite active_section_snoc, Hhead, <- Hcur. }
        intros tag. rewrite content_of_snoc, Hnew, <- Hcur, Hstrip.
        destruct (decide (cur = tag)) as [<- | Hne].
        -- rewrite lookup_insert_eq.
           rewrite (decide_True (P := cur ∈ tags)) by done.
           by rewrite (decide_True (P := Some cur = Some cur)) by done.
        -- rewrite lookup_insert_ne, Htext by done.
           rewrite (decide_False (P := Some cur = Some tag)) by congruence.
           by rewrite app_nil_r.
    + split; [by rewrite active_section_snoc, Hhead, <- Hcur|].
      intros tag. rewrite Htext, Hnone; [done|].
      rewrite Hnew, <- Hcur. by destruct (Str.strip line).
Qed.

Lemma seg_inv_segment (lines : list string) : seg_inv lines (segment lines).
Proof.
  unfold segment. induction lines as [|line lines IH] using rev_ind.
  - apply seg_inv_init.
  - rewrite fold_left_app. cbn [fold_left]. by apply seg_inv_step.
Qed.

Lemma find_first {A} (f : A -> bool) (l : list A) (x : A) :
  List.find f l = Some x ->
  exists pre post, l = (pre ++ x :: post)%list /\ f x = true
                   /\ Forall (fun y => f y = false) pre.
Proof.
  induction l as [|a l IH]; [done|]. cbn [List.find].
  destruct (f a) eqn:Hfa.
  - intros [= ->]. by exists [], l.
  - intros (pre & post & -> & Hx & Hpre)%IH.
    exists (a :: pre), post. repeat split; [done|]. by constructor.
Qed.

(** ** The normalizer *)

Section Normalizer.



(** *** [collapse_newlines] *)

Lemma collapse_begins (s : string) :
  Str.begins is_nl (collapse_newlines s) = Str.begins is_nl s.
Proof.
  induction s as [|c s IH]; [reflexivity|]. cbn [collapse_newlines].
  fold is_nl. destruct (is_nl c && _) eqn:Hdrop; [|reflexivity].
  apply andb_prop in Hdrop as [Hc Hs]. rewrite IH, Hs. by cbn.
Qed.

Lemma collapse_no_double (s : string) :
  double_newline (collapse_newlines s) = false.
Proof.
  induction s as [|c s IH]; [reflexivity|]. cbn [collapse_newlines].
  fold is_nl. destruct (is_nl c && _) eqn:Hdrop; [done|].
  cbn [double_newline]. by rewrite IH, collapse_begins, orb_false_r.
Qed.




(** *** [strip] *)

Lemma lstrip_begins (s : string) : Str.begins Chr.space (Str.lstrip s) = false.
Proof.
  induction s as [|c s IH]; [reflexivity|]. cbn [Str.lstrip].
  by destruct (Chr.space c) eqn:Hc.
Qed.

Lemma lstrip_no_double (s : string) :
  double_newline s = false -> double_newline (Str.lstrip s) = false.
Proof.
  induction s as [|c s IH]; [done|]. cbn [Str.lstrip].
  destruct (Chr.space c); [|done].
  cbn [double_newline]. intros [_ Hs]%orb_false_elim. by apply IH.
Qed.

(** [rstrip] keeps the first character of what it does not empty. *)
Lemma rstrip_head (s : string) (d : ascii) (r : string) :
  Str.rstrip s = String d r -> exists s', s = String d s'.
Proof.
  destruct s as [|c s]; [done|]. cbn [Str.rstrip].
  destruct (Str.rstrip s); [destruct (Chr.space c)|]; intros [= <- _]; eauto.
Qed.

Lemma rstrip_begins (p : ascii -> bool) (s : string) :
  Str.begins p s = false -> Str.begins p (Str.rstrip s) = false.
Proof.
  destruct (Str.rstrip s) as [|d r] eqn:Hr; [done|].
  apply rstrip_head in Hr as [s' ->]. done.
Qed.

Lemma rstrip_ends (s : string) : Str.ends Chr.space (Str.rstrip s) = false.
Proof.
  induction s as [|c s IH]; [reflexivity|]. cbn [Str.rstrip].
  destruct (Str.rstrip s) as [|d r].
  - by destruct (Chr.space c) eqn:Hc.
  - exact IH.
Qed.

Lemma rstrip_no_double (s : string) :
  double_newline s = false -> double_newline (Str.rstrip s) = false.
Proof.
  induction s as [|c s IH]; [done|]. cbn [double_newline Str.rstrip].
  intros [Hc Hs]%orb_false_elim. specialize (IH Hs).
  destruct (Str.rstrip s) as [|d r] eqn:Hr.
  - destruct (Chr.space c); [done|]. cbn. by rewrite andb_false_r.
  - cbn [double_newline] in *. rewrite orb_false_iff. split; [|done].
    apply rstrip_head in Hr as [s' ->]. exact Hc.
Qed.

Lemma lstrip_fixed (s : string) :
  Str.begins Chr.space s = false -> Str.lstrip s = s.
Proof. destruct s as [|c s]; [done|]. cbn. by intros ->. Qed.

Lemma rstrip_fixed (s : string) :
  Str.ends Chr.space s = false -> Str.rstrip s = s.
Proof.
  induction s as [|c s IH]; [done|]. cbn [Str.rstrip].
  destruct s as [|d s].
  - cbn. by intros ->.
  - intros Hs. by rewrite (IH Hs).
Qed.

Lemma strip_begins (s : string) : Str.begins Chr.space (Str.strip s) = false.
Proof. apply rstrip_begins, lstrip_begins. Qed.

Lemma strip_ends (s : string) : Str.ends Chr.space (Str.strip s) = false.
Proof. apply rstrip_ends. Qed.

Lemma strip_strip (s : string) : Str.strip (Str.strip s) = Str.strip s.
Proof.
  unfold Str.strip at 1.
  rewrite (lstrip_fixed (Str.strip s)) by apply strip_begins.
  apply rstrip_fixed, strip_ends.
Qed.

Lemma strip_no_double (s : string) :
  double_newline s = false -> double_newline (Str.strip s) = false.
Proof. intros Hs. by apply rstrip_no_double, lstrip_no_double. Qed.

(** *** The lines of a text without doubled or trailing line feeds *)






End Normalizer.



(** ** What [parse] returns of the sections *)

Section Sections.

Variable nlp : option (string -> list string).
Variable current_year : Z.

Lemma section_content (lines : list string) (tag : string) :
  tag ∈ tags -> section (segment lines) tag = content_of lines tag.
Proof.
  intros Htag. unfold section.
  rewrite (inv_text _ _ (seg_inv_segment lines)). by rewrite decide_True.
Qed.

Lemma parse_text_sections (raw_text : string) :
  let lines := Str.split_lines (clean_text (Some raw_text)) in
  let data := parse_text nlp current_year raw_text in
  data !! "Education" = Some (VList (content_of lines "education"))
  /\ data !! "Skills" = Some (VList (content_of lines "skills"))
  /\ data !! "Experience" = Some (VList (content_of lines "experience"))
  /\ data !! "Achievements" = Some (VList (content_of lines "achievements")).
Proof.
  cbv zeta. unfold parse_text. cbv zeta.
  rewrite <- !section_content by (by vm_compute; set_solver).
  repeat split; by simplify_map_eq.
Qed.

Lemma parse_text_dom (raw_text : string) :
  dom (parse_text nlp current_year raw_text)
  = list_to_set ["Full Name"; "Email"; "Phone"; "Skills"; "Education";
                 "Experience"; "Achievements"; "AI_Analysis"].
Proof.
  unfold parse_text. cbv zeta.
  repeat case_match; rewrite !dom_insert_L, dom_empty_L;
    cbn [list_to_set]; set_solver.
Qed.

End Sections.

(** C9, as the code does it: the lines the projects section receives are
    in none of the four section fields of the result.  The table holds them
    under ["projects"], but the keys of the result are the eight of [data]
    and none is for projects; ["Education"], ["Skills"], ["Experience"] and
    ["Achievements"] hold exactly the lines their own section received, and
    a line the projects section received is received by none of these. *)
Theorem C9_projects_in_no_section_field
        (nlp : option (string -> list string)) (current_year : Z)
        (raw_text : string) :
  raw_text <> "" ->
  let lines := Str.split_lines (clean_text (Some raw_text)) in
  let data := parse nlp current_year (Some raw_text) in
  section_text (segment lines) !! "projects" = Some (content_of lines "projects")
  /\ dom data = list_to_set ["Full Name"; "Email"; "Phone"; "Skills"; "Education";
                            "Experience"; "Achievements"; "AI_Analysis"]
  /\ data !! "Education" = Some (VList (content_of lines "education"))
  /\ data !! "Skills" = Some (VList (content_of lines "skills"))
  /\ data !! "Experience" = Some (VList (content_of lines "experience"))
  /\ data !! "Achievements" = Some (VList (content_of lines "achievements"))
  /\ Forall (fun i => (i ∉ owned lines "education")
                      /\ (i ∉ owned lines "skills")
                      /\ (i ∉ owned lines "experience")
                      /\ (i ∉ owned lines "achievements"))
            (owned lines "projects").
Proof.
  intros Hne. cbv zeta.
  assert (Hparse : parse nlp current_year (Some raw_text)
                   = parse_text nlp current_year raw_text) by by destruct raw_text.
  rewrite Hparse.
  split.
  { rewrite (inv_text _ _ (seg_inv_segment _)).
    by rewrite decide_True by (vm_compute; set_solver). }
  split; [apply parse_text_dom|].
  destruct (parse_text_sections nlp current_year raw_text) as (He & Hs & Hx & Ha).
  do 4 (split; [done|]).
  apply Forall_forall. intros i [Hproj _]%list_elem_of_filter.
  repeat split; intros [Hother _]%list_elem_of_filter; congruence.
Qed.

Lemma C9_witness :
  ("PROJECTS" +:+ nl +:+ "Chess engine" +:+ nl +:+ "SKILLS" +:+ nl +:+ "Python") <> ""
  /\ parse None 2024
       (Some ("PROJECTS" +:+ nl +:+ "Chess engine" +:+ nl +:+ "SKILLS"
              +:+ nl +:+ "Python")) !! "Skills"
     = Some (VList (content_of ["PROJECTS"; "Chess engine"; "SKILLS"; "Python"]
                               "skills")).
Proof.
  split; [done|].
  by apply (C9_projects_in_no_section_field None 2024
              ("PROJECTS" +:+ nl +:+ "Chess engine" +:+ nl +:+ "SKILLS"
               +:+ nl +:+ "Python")).
Defined.

(** C9, as stated, fails: a line the projects section received can be a
    field of the result.  Here the header cannot be a name (it mentions
    "resume"), so the line after it, received by projects, is the name. *)
Lemma C9_counterexample :
  Str.split_lines (clean_text (Some ("Resume Projects" +:+ nl +:+ "My cool app")))
  = ["Resume Projects"; "My cool app"]
  /\ header_line "Resume Projects" = Some "projects"
  /\ owner ["Resume Projects"; "My cool app"] 1 = Some "projects"
  /\ content_of ["Resume Projects"; "My cool app"] "projects" = ["My cool app"]
  /\ parse None 2024 (Some ("Resume Projects" +:+ nl +:+ "My cool app"))
       !! "Full Name" = Some (VStr "My cool app").
Proof. repeat split; by vm_compute. Qed.

(** * Further properties *)

(** ** The experience estimate *)

(** X1: whatever the résumé, [calculate_experience_level] has one of three
    results, chosen by the keywords of the whole text alone: the fresher
    result, the uncertain entry level, or ["Junior"] with no year.  Neither
    the experience text nor the calendar year changes it. *)
Theorem X1_experience_level_by_keywords_only
        (current_year : Z) (text experience_section_text : string) :
  calculate_experience_level current_year text experience_section_text
  = if has_fresher (Str.lower text)
    then ("Fresher / Entry-Level", "0-1 Years (inferred)")
    else if title_bump_of (Str.lower text)
         then ("Junior", "0 Years detected (? - ?)")
         else ("Entry-Level (Uncertain)", "No dates found").
Proof.
  unfold calculate_experience_level. rewrite detected_years_nil.
  unfold experience_decision. cbn [year_span].
  destruct (has_fresher _), (title_bump_of _); reflexivity.
Qed.

(** X2: so no résumé is ever rated above ["Junior"]: the level is never
    ["Junior-Mid"], ["Mid-Level"], ["Mid-Senior"], ["Senior"] or
    ["Unknown"]. *)
Theorem X2_never_above_junior
        (current_year : Z) (text experience_section_text : string) :
  let level :=
    fst (calculate_experience_level current_year text experience_section_text) in
  In level ["Fresher / Entry-Level"; "Entry-Level (Uncertain)"; "Junior"]
  /\ Forall (fun high => level <> high)
            ["Junior-Mid"; "Mid-Level"; "Mid-Senior"; "Senior"; "Unknown"].
Proof.
  cbv zeta. unfold calculate_experience_level. rewrite detected_years_nil.
  unfold experience_decision. cbn [year_span].
  destruct (has_fresher _), (title_bump_of _); cbn;
    (split; [tauto | repeat constructor; discriminate]).
Qed.

(** X3: the decision of lines 88-118 itself, for any span and any list of
    years, gives one of seven labels; the initial ["Unknown"] is never
    returned. *)
Theorem X3_decision_labels
        (text_lower : string) (years : list Z) (estimated_years : Z) :
  In (fst (experience_decision text_lower years estimated_years)) levels
  /\ fst (experience_decision text_lower years estimated_years) <> "Unknown".
Proof.
  unfold experience_decision, levels.
  destruct ((estimated_years <=? 1)%Z && has_fresher text_lower);
    [cbn; split; [tauto | discriminate]|].
  destruct ((estimated_years =? 0)%Z && negb (title_bump_of text_lower));
    [cbn; split; [tauto | discriminate]|].
  destruct (title_bump_of text_lower), (estimated_years <? 3)%Z,
           ((3 <=? estimated_years)%Z && (estimated_years <? 7)%Z),
           (1 <? estimated_years)%Z;
    cbn; (split; [tauto | discriminate]).
Qed.

(** X4: without a fresher keyword the label never goes down when the span
    grows, over all spans from 0 on and not only at 0, 2, 5 and 8. *)
Theorem X4_decision_monotone
        (text_lower : string) (ys1 ys2 : list Z) (e1 e2 : Z) :
  has_fresher text_lower = false ->
  (0 <= e1 <= e2)%Z ->
  not_above (fst (experience_decision text_lower ys1 e1))
            (fst (experience_decision text_lower ys2 e2)) = true.
Proof.
  intros Hfresh He. unfold experience_decision. rewrite Hfresh, !andb_false_r.
  destruct (title_bump_of text_lower); cbn [negb andb];
    rewrite ?andb_true_r, ?andb_false_r;
    repeat match goal with
      | |- context [(?a =? ?b)%Z] => destruct (Z.eqb_spec a b)
      | |- context [(?a <? ?b)%Z] => destruct (Z.ltb_spec a b)
      | |- context [(?a <=? ?b)%Z] => destruct (Z.leb_spec a b)
      end;
    cbn; (reflexivity || lia).
Qed.

Lemma X4_witness :
  has_fresher "lead developer" = false
  /\ (0 <= 1 <= 6)%Z
  /\ not_above (fst (experience_decision "lead developer" [] 1))
               (fst (experience_decision "lead developer" [] 6)) = true.
Proof.
  split; [reflexivity|]. split; [lia|].
  apply X4_decision_monotone; [reflexivity | lia].
Defined.

(** ** The personality profile *)

Lemma contains_count (k s : string) :
  k <> "" -> Str.contains k s = true -> (1 <= Str.count k s)%Z.
Proof.
  intros Hk. unfold Str.count.
  induction s as [|c s IH]; cbn [Str.contains Str.count_from].
  - destruct k; [done | discriminate].
  - destruct (Str.startswith k (String c s)) eqn:Hstart.
    + intros _. pose proof (count_from_nonneg k s (String.length k - 1)). lia.
    + cbn [orb]. exact IH.
Qed.

Lemma trait_score_ge (tokens : list string) (text : string)
      (keywords : list string) (k : string) :
  In k keywords ->
  (Str.count k (Str.lower text) <= trait_score tokens text keywords)%Z.
Proof.
  unfold trait_score.
  set (f := fun score k' =>
              (score + counter tokens k' + Str.count k' (Str.lower text))%Z).
  assert (Hstep : forall acc k', (acc + Str.count k' (Str.lower text) <= f acc k')%Z).
  { intros acc k'. unfold f, counter. lia. }
  assert (Hpos : forall k', (0 <= Str.count k' (Str.lower text))%Z).
  { intros k'. apply count_from_nonneg. }
  assert (Hmono : forall ks acc, (acc <= fold_left f ks acc)%Z).
  { induction ks as [|k' ks IH]; intros acc; cbn [fold_left]; [lia|].
    specialize (IH (f acc k')). specialize (Hstep acc k').
    specialize (Hpos k'). lia. }
  assert (Hgen : forall ks acc, In k ks -> (0 <= acc)%Z ->
            (Str.count k (Str.lower text) <= fold_left f ks acc)%Z).
  { induction ks as [|k' ks IH]; intros acc Hin Hacc; [done|].
    cbn [fold_left]. destruct Hin as [-> | Hin].
    - specialize (Hmono ks (f acc k)). specialize (Hstep acc k). lia.
    - apply IH; [done|]. specialize (Hstep acc k'). specialize (Hpos k'). lia. }
  intros Hin. apply Hgen; [done | lia].
Qed.

(** With the tokenizer, what the profile holds for a trait of the table. *)
Lemma analyze_personality_lookup (lemmas : string -> list string)
      (text trait : string) (keywords : list string) :
  In (trait, keywords) personality_keywords ->
  analyze_personality (Some lemmas) text !! trait
  = Some (rating_of (trait_score (lemmas (Str.lower text)) text keywords),
          trait_score (lemmas (Str.lower text)) text keywords).
Proof.
  unfold analyze_personality, personality_keywords. cbn [fold_left In].
  intros Hin.
  repeat (destruct Hin as [[= <- <-] | Hin]; [by simplify_map_eq|]).
  destruct Hin.
Qed.

Lemma analyze_personality_lookup_inv (lemmas : string -> list string)
      (text trait rating : string) (score : Z) :
  analyze_personality (Some lemmas) text !! trait = Some (rating, score) ->
  exists keywords,
    In (trait, keywords) personality_keywords
    /\ score = trait_score (lemmas (Str.lower text)) text keywords
    /\ rating = rating_of score.
Proof.
  unfold analyze_personality, personality_keywords. cbn [fold_left].
  repeat (rewrite lookup_insert; case_decide;
          [subst trait; intros [= <- <-]; eexists;
           split; [cbn [In]; eauto 10 | done]|]).
  by rewrite lookup_empty.
Qed.

Lemma rating_of_cases (score : Z) : In (rating_of score) ratings.
Proof.
  unfold rating_of, ratings. repeat case_match; cbn; tauto.
Qed.

(** X5: with the tokenizer at hand, a keyword of a trait that occurs
    anywhere in the lowercased text, inside a longer word too, gives the
    trait a score of at least 1 and a rating other than ["Not Detected"]. *)
Theorem X5_keyword_in_text_is_detected
        (lemmas : string -> list string) (text trait k : string)
        (keywords : list string) :
  In (trait, keywords) personality_keywords ->
  In k keywords ->
  Str.contains k (Str.lower text) = true ->
  exists rating score,
    analyze_personality (Some lemmas) text !! trait = Some (rating, score)
    /\ (1 <= score)%Z
    /\ rating <> "Not Detected".
Proof.
  intros Htrait Hk Hocc.
  assert (Hne : k <> "").
  { intros ->. revert Htrait Hk. unfold personality_keywords. cbn [In].
    intros Htrait.
    repeat (destruct Htrait as [[= <- <-] | Htrait];
            [cbn [In]; intros Hk; repeat (destruct Hk as [Hk | Hk]; [done|]);
             destruct Hk|]).
    destruct Htrait. }
  eexists _, _. split; [by apply analyze_personality_lookup|].
  pose proof (trait_score_ge (lemmas (Str.lower text)) text keywords k Hk) as Hge.
  pose proof (contains_count k (Str.lower text) Hne Hocc) as Hone.
  split; [lia|]. unfold rating_of. repeat case_match; (done || lia).
Qed.

Lemma X5_witness :
  In ("Teamwork", ["collaborated"; "team"; "partnered"; "assisted"; "supported";
                   "cooperated"; "joint"; "group"; "member"]) personality_keywords
  /\ Str.contains "team" (Str.lower "Steam engines") = true
  /\ exists rating score,
       analyze_personality (Some (fun _ => [])) "Steam engines" !! "Teamwork"
       = Some (rating, score)
       /\ (1 <= score)%Z /\ rating <> "Not Detected".
Proof.
  split; [cbn; tauto|]. split; [reflexivity|].
  eapply (X5_keyword_in_text_is_detected (fun _ => []) "Steam engines"
            "Teamwork" "team"); [cbn; tauto | cbn; tauto | reflexivity].
Defined.

(** X6: with the tokenizer at hand the profile has the six traits and no
    other; each holds a score that is not negative and one of the ratings
    ["Not Detected"], ["Low"], ["Medium"], ["High"], never ["N/A"]. *)
Theorem X6_profile_shape (lemmas : string -> list string) (text : string) :
  dom (analyze_personality (Some lemmas) text) = list_to_set traits
  /\ map_Forall (fun _ '(rating, score) =>
                   In rating ratings /\ (0 <= score)%Z /\ rating <> "N/A")
                (analyze_personality (Some lemmas) text).
Proof.
  split.
  - unfold analyze_personality, personality_keywords, traits. cbn [fold_left].
    rewrite !dom_insert_L, dom_empty_L. cbn. set_solver.
  - intros trait [rating score] Hlook.
    apply analyze_personality_lookup_inv in Hlook as (kws & _ & -> & ->).
    split; [apply rating_of_cases|]. split; [apply trait_score_nonneg|].
    unfold rating_of. by repeat case_match.
Qed.

(** X7: a higher score never gets a lower rating. *)
Theorem X7_rating_monotone (score1 score2 : Z) :
  (score1 <= score2)%Z ->
  exists i j, position (rating_of score1) ratings = Some i
              /\ position (rating_of score2) ratings = Some j
              /\ (i <= j)%nat.
Proof.
  intros Hle. unfold rating_of.
  repeat match goal with
    | |- context [(?a <? ?b)%Z] => destruct (Z.ltb_spec a b)
    | |- context [(?a <=? ?b)%Z] => destruct (Z.leb_spec a b)
    end; try lia; cbn; eexists _, _; (repeat split; [lia]).
Qed.

Lemma X7_witness :
  (3 <= 12)%Z
  /\ exists i j, position (rating_of 3) ratings = Some i
                 /\ position (rating_of 12) ratings = Some j /\ (i <= j)%nat.
Proof. split; [lia|]. apply X7_rating_monotone. lia. Defined.

(** ** The normalizer, again *)

Lemma collapse_fixed (s : string) :
  double_newline s = false -> collapse_newlines s = s.
Proof.
  induction s as [|c s IH]; [done|]. cbn [double_newline collapse_newlines].
  intros [Hc Hs]%orb_false_elim. fold is_nl. rewrite Hc. by rewrite IH.
Qed.

Lemma clean_text_shape (text : option string) :
  exists raw, clean_text text = Str.strip (collapse_newlines raw).
Proof.
  destruct text as [[|c raw]|]; [by exists ""|by eexists|by exists ""].
Qed.

Lemma clean_text_stable (text : option string) :
  double_newline (clean_text text) = false
  /\ Str.strip (clean_text text) = clean_text text.
Proof.
  destruct (clean_text_shape text) as [raw ->].
  split; [apply strip_no_double, collapse_no_double | apply strip_strip].
Qed.

(** X8: normalizing twice is normalizing once. *)
Theorem X8_clean_text_idempotent (text : option string) :
  clean_text (Some (clean_text text)) = clean_text text.
Proof.
  destruct (clean_text_stable text) as [Hdouble Hstrip].
  destruct (clean_text text) as [|c t] eqn:Ht; [done|].
  cbn [clean_text]. by rewrite collapse_fixed.
Qed.

Lemma all_space_lstrip (s : string) :
  all_space s = true -> Str.lstrip s = "".
Proof.
  unfold all_space. induction s as [|c s IH]; [done|].
  cbn [list_ascii_of_string forallb Str.lstrip].
  intros [Hc Hs]%andb_prop. rewrite Hc. by apply IH.
Qed.

Lemma all_space_collapse (s : string) :
  all_space s = true -> all_space (collapse_newlines s) = true.
Proof.
  unfold all_space. induction s as [|c s IH]; [done|].
  cbn [list_ascii_of_string forallb collapse_newlines].
  intros [Hc Hs]%andb_prop. destruct (_ && _); [by apply IH|].
  cbn [list_ascii_of_string forallb]. by rewrite Hc, IH.
Qed.

Lemma all_space_clean (raw : string) :
  all_space raw = true -> clean_text (Some raw) = "".
Proof.
  intros Hraw. destruct raw as [|c raw]; [done|]. cbn [clean_text].
  unfold Str.strip. by rewrite all_space_lstrip by by apply all_space_collapse.
Qed.

Section Normalized.

Variable nlp : option (string -> list string).
Variable current_year : Z.

(** [parse_text] reads its argument through [clean_text] only. *)
Lemma parse_text_clean (raw1 raw2 : string) :
  clean_text (Some raw1) = clean_text (Some raw2) ->
  parse_text nlp current_year raw1 = parse_text nlp current_year raw2.
Proof. intros Heq. unfold parse_text. by rewrite Heq. Qed.

(** X9: a text that is not empty but holds white space only (a document
    of empty paragraphs) is not reported as unreadable: [parse] returns the
    full record, with every contact field ["Not Found"], the four sections
    empty and the uncertain entry level. *)
Theorem X9_blank_document (raw_text : string) :
  raw_text <> "" -> all_space raw_text = true ->
  let data := parse nlp current_year (Some raw_text) in
  data !! "Error" = None
  /\ data !! "Full Name" = Some (VStr "Not Found")
  /\ data !! "Email" = Some (VStr "Not Found")
  /\ data !! "Phone" = Some (VStr "Not Found")
  /\ data !! "Skills" = Some (VList [])
  /\ data !! "Education" = Some (VList [])
  /\ data !! "Experience" = Some (VList [])
  /\ data !! "Achievements" = Some (VList [])
  /\ ai_field data "Experience_Level" = Some (VStr "Entry-Level (Uncertain)")
  /\ ai_field data "Experience_Detail" = Some (VStr "No dates found").
Proof.
  intros Hne Hspace. cbv zeta.
  assert (Hparse : parse nlp current_year (Some raw_text)
                   = parse_text nlp current_year " ").
  { destruct raw_text as [|c t]; [done|]. cbn [parse].
    apply parse_text_clean. by rewrite all_space_clean. }
  rewrite Hparse. repeat split; by vm_compute.
Qed.

(** X10: when the normalized text is not empty, [parse] gives the same
    record on the raw text and on its normalization. *)
Theorem X10_parse_of_normalized (raw_text : string) :
  clean_text (Some raw_text) <> "" ->
  parse nlp current_year (Some (clean_text (Some raw_text)))
  = parse nlp current_year (Some raw_text).
Proof.
  intros Hne.
  assert (Hraw : raw_text <> "") by (by intros ->).
  destruct (clean_text (Some raw_text)) as [|c t] eqn:Hclean; [done|].
  destruct raw_text as [|d r]; [done|]. cbn [parse].
  apply parse_text_clean. rewrite Hclean.
  destruct (clean_text_stable (Some (String d r))) as [Hdouble Hstrip].
  rewrite Hclean in Hdouble, Hstrip.
  cbn [clean_text]. by rewrite collapse_fixed.
Qed.

End Normalized.

Lemma X9_witness :
  (nl +:+ nl) <> "" /\ all_space (nl +:+ nl) = true
  /\ parse None 2024 (Some (nl +:+ nl)) !! "Full Name" = Some (VStr "Not Found").
Proof.
  split; [done|]. split; [reflexivity|].
  by apply (X9_blank_document None 2024 (nl +:+ nl)).
Defined.

Lemma X10_witness :
  clean_text (Some ("  Jane Roe " +:+ nl +:+ nl +:+ "SKILLS" +:+ nl)) <> ""
  /\ parse None 2024
       (Some (clean_text (Some ("  Jane Roe " +:+ nl +:+ nl +:+ "SKILLS" +:+ nl))))
     = parse None 2024 (Some ("  Jane Roe " +:+ nl +:+ nl +:+ "SKILLS" +:+ nl)).
Proof.
  split; [by vm_compute|]. apply X10_parse_of_normalized. by vm_compute.
Defined.

(** ** Reading the file *)

Lemma append_nonempty (a b : string) : b <> "" -> a +:+ b <> "".
Proof. intros Hb. destruct a; [done | discriminate]. Qed.

Lemma add_pages_empty (pages : list (option string)) (text : string) :
  fold_left add_page pages text = ""
  <-> text = "" /\ Forall (fun p => p = None \/ p = Some "") pages.
Proof.
  revert text. induction pages as [|p pages IH]; intros text; cbn [fold_left].
  - split; [by intros -> | by intros [-> _]].
  - rewrite IH. destruct p as [[|c t]|]; cbn [add_page].
    + split; intros [-> Hall]; (split; [done|]).
      * constructor; auto.
      * by inversion Hall.
    + split.
      * intros [Hempty _]. by apply append_nonempty in Hempty.
      * intros [_ Hall]. inversion Hall as [|? ? Hp ?]. by destruct Hp.
    + split; intros [-> Hall]; (split; [done|]).
      * constructor; auto.
      * by inversion Hall.
Qed.

Lemma add_paragraphs_empty (paragraphs : list string) (text : string) :
  fold_left add_paragraph paragraphs text = "" <-> text = "" /\ paragraphs = [].
Proof.
  revert text. induction paragraphs as [|p ps IH]; intros text; cbn [fold_left].
  - split; [by intros -> | by intros [-> _]].
  - rewrite IH. unfold add_paragraph. split; [|by intros [_ ?]].
    intros [Hempty _]. apply append_nonempty in Hempty; [done|].
    by apply append_nonempty.
Qed.

Lemma add_paragraphs_blank (paragraphs : list string) (text : string) :
  all_space text = true -> Forall (fun p => all_space p = true) paragraphs ->
  all_space (fold_left add_paragraph paragraphs text) = true.
Proof.
  assert (Happ : forall a b, all_space a = true -> all_space b = true ->
                             all_space (a +:+ b) = true).
  { unfold all_space. induction a as [|c a IH]; intros b; [done|].
    cbn [String.append list_ascii_of_string forallb].
    intros [Hc Ha]%andb_prop Hb.
    change (String c a +:+ b) with (String c (a +:+ b)).
    cbn [list_ascii_of_string forallb]. rewrite Hc. by apply IH. }
  revert text. induction paragraphs as [|p ps IH]; intros text Htext Hall; [done|].
  inversion Hall as [|? ? Hp Hps]; subst. cbn [fold_left]. apply IH; [|done].
  unfold add_paragraph. by repeat apply Happ.
Qed.

Section Reading.

Variable splitext : string -> string * string.
Variable pdf_pages : string -> option (list (option string)).
Variable docx_paragraphs : string -> option (list string).
Variable nlp : option (string -> list string).
Variable current_year : Z.

Lemma parse_error_iff (raw_text : option string) :
  is_Some (parse nlp current_year raw_text !! "Error")
  <-> raw_text = None \/ raw_text = Some "".
Proof.
  destruct raw_text as [[|c t]|]; cbn [parse].
  - split; [auto | intros _; by eexists].
  - rewrite parse_text_no_error. split; [by intros [] | by intros [|]].
  - split; [auto | intros _; by eexists].
Qed.

Lemma parse_error_record (raw_text : option string) :
  raw_text = None \/ raw_text = Some "" ->
  parse nlp current_year raw_text = {[ "Error" := VStr "Could not extract text." ]}.
Proof. by intros [-> | ->]. Qed.

(** X11: a file is reported as unreadable, with the one-key error record
    and nothing else, exactly when its extension (whatever its case) is
    none of [.pdf], [.docx], [.doc], or reading it raised, or it is a PDF
    none of whose pages has text, or a document without paragraphs. *)
Theorem X11_unreadable_files (filepath : string) :
  let data := parse_file splitext pdf_pages docx_paragraphs nlp current_year
                         filepath in
  (is_Some (data !! "Error")
   -> data = {[ "Error" := VStr "Could not extract text." ]})
  /\ (is_Some (data !! "Error")
      <-> (file_ext splitext filepath = ".pdf"
           /\ (pdf_pages filepath = None
               \/ exists pages, pdf_pages filepath = Some pages
                    /\ Forall (fun p => p = None \/ p = Some "") pages))
          \/ (file_ext splitext filepath <> ".pdf"
              /\ (file_ext splitext filepath = ".docx" \/ file_ext splitext filepath = ".doc")
              /\ (docx_paragraphs filepath = None
                  \/ docx_paragraphs filepath = Some []))
          \/ (file_ext splitext filepath <> ".pdf" /\ file_ext splitext filepath <> ".docx"
              /\ file_ext splitext filepath <> ".doc")).
Proof.
  cbv zeta. unfold parse_file.
  split; [intros Herr; by apply parse_error_record, parse_error_iff|].
  rewrite parse_error_iff. unfold extract_text. cbv zeta.
  destruct (String.eqb_spec (file_ext splitext filepath) ".pdf") as [Hpdf | Hpdf].
  { destruct (pdf_pages filepath) as [pages|].
    - split.
      + intros [Hnone | Hempty]; [done|]. injection Hempty as Hempty.
        apply add_pages_empty in Hempty as [_ Hall].
        left. split; [done|]. right. by exists pages.
      + intros [[_ Hread] | [[Hno _] | [Hno _]]]; [|done..].
        destruct Hread as [Hread | (pages' & Hread & Hall)]; [done|].
        injection Hread as <-. right. f_equal. by apply add_pages_empty.
    - split; [intros _; left; auto | auto]. }
  destruct (String.eqb_spec (file_ext splitext filepath) ".docx") as [Hdocx | Hdocx];
    [|destruct (String.eqb_spec (file_ext splitext filepath) ".doc") as [Hdoc | Hdoc]];
    cbn [orb].
  - destruct (docx_paragraphs filepath) as [paragraphs|].
    + split.
      * intros [Hnone | Hempty]; [done|]. injection Hempty as Hempty.
        apply add_paragraphs_empty in Hempty as [_ ->]. right. left. auto.
      * intros [[Hyes _] | [(_ & _ & Hread) | (_ & Hno & _)]]; [done| |done].
        destruct Hread as [Hread | Hread]; [done|]. injection Hread as ->. by right.
    + split; [intros _; right; left; auto | auto].
  - destruct (docx_paragraphs filepath) as [paragraphs|].
    + split.
      * intros [Hnone | Hempty]; [done|]. injection Hempty as Hempty.
        apply add_paragraphs_empty in Hempty as [_ ->]. right. left. auto.
      * intros [[Hyes _] | [(_ & _ & Hread) | (_ & _ & Hno)]]; [done| |done].
        destruct Hread as [Hread | Hread]; [done|]. injection Hread as ->. by right.
    + split; [intros _; right; left; auto | auto].
  - split; [intros _; right; right; auto | auto].
Qed.

(** X12: a document whose paragraphs are all blank, one at least, is not
    reported as unreadable: the result is the full record with every
    contact field ["Not Found"] and the four sections empty. *)
Theorem X12_blank_document_file (filepath : string) (paragraphs : list string) :
  file_ext splitext filepath = ".docx" \/ file_ext splitext filepath = ".doc" ->
  docx_paragraphs filepath = Some paragraphs ->
  paragraphs <> [] ->
  Forall (fun p => all_space p = true) paragraphs ->
  let data := parse_file splitext pdf_pages docx_paragraphs nlp current_year
                         filepath in
  data !! "Error" = None
  /\ data !! "Full Name" = Some (VStr "Not Found")
  /\ data !! "Email" = Some (VStr "Not Found")
  /\ data !! "Phone" = Some (VStr "Not Found")
  /\ data !! "Skills" = Some (VList [])
  /\ data !! "Education" = Some (VList [])
  /\ data !! "Experience" = Some (VList [])
  /\ data !! "Achievements" = Some (VList []).
Proof.
  intros Hext Hread Hne Hblank. cbv zeta. unfold parse_file, extract_text.
  cbv zeta.
  assert (Hsel : String.eqb (file_ext splitext filepath) ".pdf" = false
                 /\ String.eqb (file_ext splitext filepath) ".docx"
                    || String.eqb (file_ext splitext filepath) ".doc" = true).
  { destruct Hext as [-> | ->]; by vm_compute. }
  destruct Hsel as [-> ->]. rewrite Hread.
  set (raw := fold_left add_paragraph paragraphs "").
  assert (Hraw : raw <> "").
  { intros Hempty. by apply add_paragraphs_empty in Hempty as [_ ?]. }
  assert (Hspace : all_space raw = true) by by apply add_paragraphs_blank.
  assert (Hparse : parse nlp current_year (Some raw)
                   = parse_text nlp current_year " ").
  { destruct raw as [|c t]; [done|]. cbn [parse].
    apply parse_text_clean. by rewrite all_space_clean. }
  rewrite Hparse. repeat split; by vm_compute.
Qed.

End Reading.

Lemma X11_witness :
  is_Some (parse_file (fun _ => ("notes", ".TXT")) (fun _ => None)
                      (fun _ => None) None 2024 "notes.TXT" !! "Error")
  /\ parse_file (fun _ => ("notes", ".TXT")) (fun _ => None) (fun _ => None)
                None 2024 "notes.TXT"
     = {[ "Error" := VStr "Could not extract text." ]}.
Proof.
  assert (Herr : is_Some (parse_file (fun _ => ("notes", ".TXT")) (fun _ => None)
                            (fun _ => None) None 2024 "notes.TXT" !! "Error")).
  { apply (X11_unreadable_files (fun _ => ("notes", ".TXT")) (fun _ => None)
             (fun _ => None) None 2024 "notes.TXT").
    right. right. by vm_compute. }
  split; [done|].
  by apply (X11_unreadable_files (fun _ => ("notes", ".TXT")) (fun _ => None)
              (fun _ => None) None 2024 "notes.TXT").
Defined.

Lemma X12_witness :
  (file_ext (fun _ => ("cv", ".DOCX")) "cv.DOCX" = ".docx"
   \/ file_ext (fun _ => ("cv", ".DOCX")) "cv.DOCX" = ".doc")
  /\ ["" ; " "] <> ([] : list string)
  /\ Forall (fun p => all_space p = true) [""; " "]
  /\ parse_file (fun _ => ("cv", ".DOCX")) (fun _ => None)
                (fun _ => Some [""; " "]) None 2024 "cv.DOCX" !! "Error" = None.
Proof.
  assert (Hext : file_ext (fun _ => ("cv", ".DOCX")) "cv.DOCX" = ".docx"
                 \/ file_ext (fun _ => ("cv", ".DOCX")) "cv.DOCX" = ".doc")
    by by left.
  assert (Hne : [""; " "] <> ([] : list string)) by done.
  assert (Hblank : Forall (fun p => all_space p = true) [""; " "])
    by by repeat constructor.
  do 3 (split; [done|]).
  by apply (X12_blank_document_file (fun _ => ("cv", ".DOCX")) (fun _ => None)
              (fun _ => Some [""; " "]) None 2024 "cv.DOCX" [""; " "]).
Defined.

(** ** The dashboard *)

Section Dashboard.

Variable nlp : option (string -> list string).
Variable current_year : Z.

Lemma parse_text_contact (raw_text : string) :
  exists name email phone,
    parse_text nlp current_year raw_text !! "Full Name" = Some (VStr name)
    /\ parse_text nlp current_year raw_text !! "Email" = Some (VStr email)
    /\ parse_text nlp current_year raw_text !! "Phone" = Some (VStr phone).
Proof.
  unfold parse_text. cbv zeta.
  repeat case_match; eexists _, _, _; repeat split; by simplify_map_eq.
Qed.

Lemma parse_text_exp_card (raw_text : string) :
  create_exp_card (parse_text nlp current_year raw_text)
  = let exp := calculate_experience_level current_year
                 (clean_text (Some raw_text))
                 (full_experience_text
                    (segment (Str.split_lines (clean_text (Some raw_text))))) in
    Some (fst exp, snd exp, level_color (fst exp)).
Proof.
  unfold create_exp_card, get_ai, parse_text. cbv zeta.
  rewrite lookup_insert_eq. cbn [mbind option_bind].
  unfold get_str. by simplify_map_eq.
Qed.

(** X13: whatever [parse] returned, the experience card is drawn in the
    colour of the lowest levels, ["#f39c12"]; for the error record it shows
    the level ["Unknown"] and no detail. *)
Theorem X13_experience_card_colour (raw_text : option string) :
  (exists level details,
     create_exp_card (parse nlp current_year raw_text)
     = Some (level, details, "#f39c12"))
  /\ (is_Some (parse nlp current_year raw_text !! "Error") ->
      create_exp_card (parse nlp current_year raw_text)
      = Some ("Unknown", "", "#f39c12")).
Proof.
  destruct raw_text as [[|c t]|]; cbn [parse].
  - split; [by eexists _, _ | done].
  - rewrite parse_text_exp_card, parse_text_no_error. cbv zeta.
    split; [|by intros []].
    unfold calculate_experience_level. rewrite detected_years_nil.
    unfold experience_decision. cbn [year_span].
    destruct (has_fresher _), (title_bump_of _); by eexists _, _.
  - split; [by eexists _, _ | done].
Qed.

(** X14: the header card shows ["N/A"] three times for the error record,
    and for every other result of [parse] the name, e-mail and phone the
    record holds, so that ["N/A"] then only appears if the résumé says so. *)
Theorem X14_header_card (raw_text : option string) :
  let data := parse nlp current_year raw_text in
  (is_Some (data !! "Error") ->
   create_header_card data = Some ("N/A", "N/A", "N/A"))
  /\ (data !! "Error" = None ->
      exists name email phone,
        data !! "Full Name" = Some (VStr name)
        /\ data !! "Email" = Some (VStr email)
        /\ data !! "Phone" = Some (VStr phone)
        /\ create_header_card data = Some (name, email, phone)).
Proof.
  cbv zeta. destruct raw_text as [[|c t]|]; cbn [parse];
    (split; [try done|try done]).
  - by rewrite parse_text_no_error; intros [].
  - intros _. destruct (parse_text_contact (String c t))
      as (name & email & phone & Hn & He & Hp).
    exists name, email, phone. unfold create_header_card, get_str.
    by rewrite Hn, He, Hp.
Qed.

End Dashboard.

Lemma X13_witness :
  is_Some (parse None 2024 None !! "Error")
  /\ create_exp_card (parse None 2024 None) = Some ("Unknown", "", "#f39c12").
Proof.
  assert (Herr : is_Some (parse None 2024 None !! "Error")) by by eexists.
  split; [done|]. by apply (X13_experience_card_colour None 2024 None).
Defined.

Lemma X14_witness :
  parse None 2024 (Some scenario) !! "Error" = None
  /\ exists name email phone,
       parse None 2024 (Some scenario) !! "Full Name" = Some (VStr name)
       /\ parse None 2024 (Some scenario) !! "Email" = Some (VStr email)
       /\ parse None 2024 (Some scenario) !! "Phone" = Some (VStr phone)
       /\ create_header_card (parse None 2024 (Some scenario))
          = Some (name, email, phone).
Proof.
  assert (Hok : parse None 2024 (Some scenario) !! "Error" = None) by done.
  split; [done|]. by apply (X14_header_card None 2024 (Some scenario)).
Defined.

(** X15: the bar of a trait is as wide as its score is high, 100 from 10
    on, 60 from 4 to 9 and 20 below; below 4 it has the width and the
    colour of the bar of a trait without the tokenizer (["N/A"]), so the
    ratings ["Low"], ["Not Detected"] and ["N/A"] are drawn alike. *)
Theorem X15_trait_bar (score : Z) :
  fill_width (rating_of score)
  = (if (10 <=? score)%Z then 100 else if (4 <=? score)%Z then 60 else 20)%Z
  /\ bar_color (rating_of score)
     = (if (10 <=? score)%Z then "#2ecc71"
        else if (4 <=? score)%Z then "#f1c40f" else "#ecf0f1")
  /\ ((score < 4)%Z ->
      fill_width (rating_of score) = fill_width "N/A"
      /\ bar_color (rating_of score) = bar_color "N/A").
Proof.
  unfold rating_of.
  destruct (Z.leb_spec 10 score), (Z.leb_spec 4 score), (Z.ltb_spec 0 score);
    repeat split; try reflexivity; try lia; intros; lia.
Qed.

Lemma X15_witness :
  (2 < 4)%Z
  /\ fill_width (rating_of 2) = fill_width "N/A"
  /\ bar_color (rating_of 2) = bar_color "N/A".
Proof. split; [lia|]. apply (X15_trait_bar 2). lia. Defined.

(** ** The section fields and the name *)

Lemma content_of_elem (lines : list string) (tag l : string) :
  l ∈ content_of lines tag ->
  exists i line, lines !! i = Some line /\ l = Str.strip line
                 /\ owner lines i = Some tag.
Proof.
  unfold content_of, owned.
  intros (i & [Hown _]%list_elem_of_filter & Hi)%list_elem_of_omap.
  destruct (lines !! i) as [line|] eqn:Hline; [|done].
  injection Hi as <-. by exists i, line.
Qed.

Lemma owner_Some (lines : list string) (i : nat) (tag : string) :
  owner lines i = Some tag ->
  exists line, lines !! i = Some line /\ header_line line = None
               /\ Str.strip line <> ""
               /\ active_section (take i lines) = Some tag.
Proof.
  unfold owner. destruct (lines !! i) as [line|]; [|done].
  destruct (header_line line) eqn:Hhead; [done|].
  destruct (Str.strip line) eqn:Hstrip; [done|].
  intros Hact. exists line. rewrite Hhead, Hstrip. done.
Qed.

Lemma no_header_no_section (lines : list string) :
  Forall (fun line => header_line line = None) lines ->
  forall tag, content_of lines tag = [].
Proof.
  intros Hall tag.
  destruct (content_of lines tag) as [|l ls] eqn:Hcontent; [done|].
  assert (Hl : l ∈ content_of lines tag) by (rewrite Hcontent; by left).
  apply content_of_elem in Hl as (i & line & _ & _ & Hown).
  apply owner_Some in Hown as (_ & _ & _ & _ & Hact).
  unfold active_section in Hact.
  assert (Hnone : omap header_line (take i lines) = []).
  { assert (Htake : Forall (fun line => header_line line = None) (take i lines))
      by by apply Forall_take.
    generalize (take i lines), Htake. clear.
    induction 1 as [|x xs Hx _ IH]; [done|]. csimpl. by rewrite Hx. }
  by rewrite Hnone in Hact.
Qed.

Section Fields.

Variable nlp : option (string -> list string).
Variable current_year : Z.

(** X16: the items of the four section fields are stripped lines that are
    not empty, and none of them is the line of a header. *)
Theorem X16_section_items (raw_text field : string) (items : list string) :
  raw_text <> "" ->
  In field ["Skills"; "Education"; "Experience"; "Achievements"] ->
  parse nlp current_year (Some raw_text) !! field = Some (VList items) ->
  Forall (fun item =>
            item <> "" /\ Str.strip item = item
            /\ exists line,
                 line ∈ Str.split_lines (clean_text (Some raw_text))
                 /\ item = Str.strip line /\ header_line line = None)
         items.
Proof.
  intros Hne Hfield Hitems.
  assert (Hparse : parse nlp current_year (Some raw_text)
                   = parse_text nlp current_year raw_text) by by destruct raw_text.
  rewrite Hparse in Hitems.
  destruct (parse_text_sections nlp current_year raw_text) as (He & Hs & Hx & Ha).
  cbv zeta in He, Hs, Hx, Ha.
  assert (Hcontent : exists tag,
            items = content_of (Str.split_lines (clean_text (Some raw_text))) tag).
  { cbn [In] in Hfield.
    destruct Hfield as [<- | [<- | [<- | [<- | []]]]];
      [exists "skills" | exists "education" | exists "experience"
       | exists "achievements"]; congruence. }
  destruct Hcontent as [tag ->].
  apply Forall_forall. intros item Hitem.
  apply content_of_elem in Hitem as (i & line & Hline & -> & Hown).
  apply owner_Some in Hown as (line' & Hline' & Hhead & Hstrip & _).
  assert (line' = line) as -> by congruence.
  split; [done|]. split; [apply strip_strip|].
  exists line. split; [by eapply list_elem_of_lookup_2 | done].
Qed.

(** X17: a résumé without a line that [parse] takes for a header has four
    empty section fields: lines are only collected under a header. *)
Theorem X17_no_header_no_content (raw_text : string) :
  raw_text <> "" ->
  Forall (fun line => header_line line = None)
         (Str.split_lines (clean_text (Some raw_text))) ->
  let data := parse nlp current_year (Some raw_text) in
  data !! "Skills" = Some (VList [])
  /\ data !! "Education" = Some (VList [])
  /\ data !! "Experience" = Some (VList [])
  /\ data !! "Achievements" = Some (VList []).
Proof.
  intros Hne Hall. cbv zeta.
  assert (Hparse : parse nlp current_year (Some raw_text)
                   = parse_text nlp current_year raw_text) by by destruct raw_text.
  rewrite Hparse.
  destruct (parse_text_sections nlp current_year raw_text) as (He & Hs & Hx & Ha).
  cbv zeta in He, Hs, Hx, Ha.
  rewrite !(no_header_no_section _ Hall) in He, Hs, Hx, Ha. done.
Qed.

End Fields.

Lemma X16_witness :
  scenario <> ""
  /\ In "Experience" ["Skills"; "Education"; "Experience"; "Achievements"]
  /\ parse None 2024 (Some scenario) !! "Experience"
     = Some (VList ["Led team 2015"; "Managed project 2020"])
  /\ Forall (fun item =>
               item <> "" /\ Str.strip item = item
               /\ exists line,
                    line ∈ Str.split_lines (clean_text (Some scenario))
                    /\ item = Str.strip line /\ header_line line = None)
            ["Led team 2015"; "Managed project 2020"].
Proof.
  assert (Hne : scenario <> "") by done.
  assert (Hin : In "Experience" ["Skills"; "Education"; "Experience"; "Achievements"])
    by (cbn; tauto).
  assert (Hlook : parse None 2024 (Some scenario) !! "Experience"
                  = Some (VList ["Led team 2015"; "Managed project 2020"]))
    by by vm_compute.
  do 3 (split; [done|]).
  exact (X16_section_items None 2024 scenario "Experience" _ Hne Hin Hlook).
Defined.

Lemma X17_witness :
  ("Jane Roe" +:+ nl +:+ "Python and Rust") <> ""
  /\ Forall (fun line => header_line line = None)
            (Str.split_lines
               (clean_text (Some ("Jane Roe" +:+ nl +:+ "Python and Rust"))))
  /\ parse None 2024 (Some ("Jane Roe" +:+ nl +:+ "Python and Rust")) !! "Skills"
     = Some (VList []).
Proof.
  assert (Hne : ("Jane Roe" +:+ nl +:+ "Python and Rust") <> "") by done.
  assert (Hall : Forall (fun line => header_line line = None)
            (Str.split_lines
               (clean_text (Some ("Jane Roe" +:+ nl +:+ "Python and Rust")))))
    by (by repeat constructor).
  do 2 (split; [done|]).
  by apply (X17_no_header_no_content None 2024 _ Hne Hall).
Defined.

(** ** What the contact patterns match *)

Lemma all_ascii_complete (c : ascii) : In c all_ascii.
Proof.
  unfold all_ascii. apply list_elem_of_In, list_elem_of_fmap.
  exists (nat_of_ascii c). split; [by rewrite ascii_nat_embedding|].
  apply elem_of_seq. pose proof (nat_ascii_bounded c). lia.
Qed.

Lemma subclass_sound (p q : ascii -> bool) (c : ascii) :
  subclass p q = true -> p c = true -> q c = true.
Proof.
  unfold subclass. rewrite forallb_forall. intros Hall Hp.
  specialize (Hall c (all_ascii_complete c)). by rewrite Hp in Hall.
Qed.

Lemma disjoint_class_sound (p q : ascii -> bool) (c : ascii) :
  disjoint_class p q = true -> p c = true -> q c = false.
Proof.
  unfold disjoint_class. rewrite forallb_forall. intros Hall Hp.
  specialize (Hall c (all_ascii_complete c)). rewrite Hp in Hall.
  by destruct (q c).
Qed.

Lemma count_class_app (q : ascii -> bool) (v w : string) :
  count_class q (v +:+ w) = count_class q v + count_class q w.
Proof.
  induction v as [|c v IH]; [done|].
  change (String c v +:+ w) with (String c (v +:+ w)).
  cbn [count_class]. rewrite IH. lia.
Qed.

Lemma count_class_le (q : ascii -> bool) (w : string) :
  count_class q w <= String.length w.
Proof. induction w as [|c w IH]; cbn; [lia|]. destruct (q c); lia. Qed.

Lemma count_class_all (p q : ascii -> bool) (w : string) :
  subclass p q = true -> forallb p (list_ascii_of_string w) = true ->
  count_class q w = String.length w.
Proof.
  intros Hsub. induction w as [|c w IH]; [done|].
  cbn [list_ascii_of_string forallb count_class String.length].
  intros [Hc Hw]%andb_prop. by rewrite (subclass_sound p q c), IH.
Qed.

Lemma count_class_none (p q : ascii -> bool) (w : string) :
  disjoint_class p q = true -> forallb p (list_ascii_of_string w) = true ->
  count_class q w = 0.
Proof.
  intros Hdis. induction w as [|c w IH]; [done|].
  cbn [list_ascii_of_string forallb count_class].
  intros [Hc Hw]%andb_prop. by rewrite (disjoint_class_sound p q c), IH.
Qed.

(** What a repetition consumes. *)
Lemma rep_span {A} (p : ascii -> bool) (s : string) :
  forall (lo : nat) (hi : option nat) (prev : option ascii)
         (g : option string) (k : Re.cont A) (x : A),
    Re.rep p lo hi prev s g k = Some x ->
    exists w prev' s',
      s = w +:+ s' /\ forallb p (list_ascii_of_string w) = true
      /\ lo <= String.length w
      /\ (forall n, hi = Some n -> String.length w <= n)
      /\ k prev' s' g = Some x.
Proof.
  induction s as [|c s IH]; intros lo hi prev g k x; cbn [Re.rep].
  - destruct lo; [|done]. intros Hk. exists "", prev, "".
    repeat split; [lia | intros; cbn; lia | done].
  - assert (Hstop : match lo with 0 => k prev (String c s) g | S _ => None end
                    = Some x ->
                    exists w prev' s',
                      String c s = w +:+ s'
                      /\ forallb p (list_ascii_of_string w) = true
                      /\ lo <= String.length w
                      /\ (forall n, hi = Some n -> String.length w <= n)
                      /\ k prev' s' g = Some x).
    { destruct lo; [|done]. intros Hk. exists "", prev, (String c s).
      repeat split; [lia | intros; cbn; lia | done]. }
    destruct (_ && p c) eqn:Hmore; [|done].
    destruct (Re.rep p _ _ _ s g k) as [y|] eqn:Hrec; [|done].
    intros [= ->]. apply andb_prop in Hmore as [Hhi Hc].
    apply IH in Hrec as (w & prev' & s' & -> & Hw & Hlo & Hup & Hk).
    exists (String c w), prev', s'. cbn [list_ascii_of_string forallb String.length].
    rewrite Hc, Hw. repeat split; [lia | | done].
    intros n ->. destruct n; [done|]. specialize (Hup n eq_refl). lia.
Qed.

Lemma append_assoc' (a b c : string) : (a +:+ b) +:+ c = a +:+ (b +:+ c).
Proof.
  induction a as [|x a IH]; [done|].
  change (String x a +:+ b) with (String x (a +:+ b)).
  change (String x (a +:+ b) +:+ c) with (String x ((a +:+ b) +:+ c)).
  by rewrite IH.
Qed.

(** What a pattern consumes holds, of any class, a number of characters
    within the bounds of the pattern. *)
Lemma run_span {A} (q : ascii -> bool) (r : Re.regex) :
  forall (prev : option ascii) (s : string) (g : option string)
         (k : Re.cont A) (x : A),
    Re.run r prev s g k = Some x ->
    exists w prev' s' g',
      s = w +:+ s' /\ within q r w /\ k prev' s' g' = Some x.
Proof.
  unfold within.
  induction r as [p | p lo hi | r1 IH1 r2 IH2 | r1 IH1 r2 IH2 | r1 IH1 | r1 IH1 |];
    intros prev s g k x; cbn [Re.run least most].
  - destruct s as [|c s]; [done|]. destruct (p c) eqn:Hp; [|done].
    intros Hk. exists (String c ""), (Some c), s, g. split; [done|].
    split; [|done]. cbn [count_class]. split.
    + destruct (subclass p q) eqn:Hsub; [|lia].
      rewrite (subclass_sound p q c) by done. lia.
    + intros n [= <-]. destruct (disjoint_class p q) eqn:Hdis.
      * rewrite (disjoint_class_sound p q c) by done. lia.
      * destruct (q c); lia.
  - intros (w & prev' & s' & -> & Hw & Hlo & Hup & Hk)%rep_span.
    exists w, prev', s', g. split; [done|]. split; [|done]. split.
    + destruct (subclass p q) eqn:Hsub; [|lia].
      rewrite (count_class_all p q) by done. lia.
    + intros n. destruct (disjoint_class p q) eqn:Hdis.
      * intros [= <-]. rewrite (count_class_none p q) by done. lia.
      * intros Hhi. specialize (Hup n Hhi). pose proof (count_class_le q w). lia.
  - intros (w1 & p1 & s1 & g1 & -> & [Hl1 Hm1] & Hrun)%IH1.
    apply IH2 in Hrun as (w2 & p2 & s2 & g2 & -> & [Hl2 Hm2] & Hk).
    exists (w1 +:+ w2), p2, s2, g2. rewrite append_assoc', count_class_app.
    split; [done|]. split; [|done]. split; [lia|].
    intros n. destruct (most q r1) as [a|], (most q r2) as [b|]; try done.
    intros [= <-]. specialize (Hm1 a eq_refl). specialize (Hm2 b eq_refl). lia.
  - destruct (Re.run r1 prev s g k) as [y|] eqn:Hfirst.
    + intros [= ->]. apply IH1 in Hfirst as (w & p' & s' & g' & -> & [Hl Hm] & Hk).
      exists w, p', s', g'. split; [done|]. split; [|done]. split; [lia|].
      intros n. destruct (most q r1) as [a|], (most q r2) as [b|]; try done.
      intros [= <-]. specialize (Hm a eq_refl). lia.
    + intros (w & p' & s' & g' & -> & [Hl Hm] & Hk)%IH2.
      exists w, p', s', g'. split; [done|]. split; [|done]. split; [lia|].
      intros n. destruct (most q r1) as [a|], (most q r2) as [b|]; try done.
      intros [= <-]. specialize (Hm b eq_refl). lia.
  - destruct (Re.run r1 prev s g k) as [y|] eqn:Hfirst.
    + intros [= ->]. apply IH1 in Hfirst as (w & p' & s' & g' & -> & [Hl Hm] & Hk).
      exists w, p', s', g'. split; [done|]. split; [|done]. split; [lia | done].
    + intros Hk. exists "", prev, s, g. split; [done|]. split; [|done].
      cbn [count_class]. split; [lia | intros; lia].
  - intros (w & p' & s' & g' & -> & Hw & Hk)%IH1. by eexists w, p', s', _.
  - destruct (xorb _ _); [|done]. intros Hk. exists "", prev, s, g.
    split; [done|]. split; [|done]. cbn [count_class].
    split; [lia | intros; lia].
Qed.

Lemma length_append (a b : string) :
  String.length (a +:+ b) = String.length a + String.length b.
Proof.
  induction a as [|x a IH]; [done|].
  change (String x a +:+ b) with (String x (a +:+ b)). cbn. by rewrite IH.
Qed.

Lemma take_append (w s : string) :
  Str.take (String.length (w +:+ s) - String.length s) (w +:+ s) = w.
Proof.
  rewrite length_append.
  replace (String.length w + String.length s - String.length s)
    with (String.length w) by lia.
  induction w as [|x w IH]; [by destruct s|].
  change (String x w +:+ s) with (String x (w +:+ s)). cbn. by rewrite IH.
Qed.

Lemma count_class_length (w : string) :
  count_class (fun _ => true) w = String.length w.
Proof. induction w as [|c w IH]; [done|]. cbn. by rewrite IH. Qed.

Lemma match_here_span (r : Re.regex) (prev : option ascii) (s m : string)
      (g : option string) :
  Re.match_here r prev s = Some (m, g) ->
  (exists post, s = m +:+ post) /\ forall q, within q r m.
Proof.
  unfold Re.match_here. intros Hrun.
  assert (Hq : forall q, exists post, s = m +:+ post /\ within q r m).
  { intros q.
    destruct (run_span q r _ _ _ _ _ Hrun) as (w & p' & s' & g' & Hs & Hw & Hk).
    rewrite Hs, take_append in Hk. injection Hk as <- _. by exists s'. }
  split; [|intros q; by destruct (Hq q) as (? & _ & ?)].
  destruct (Hq (fun _ => true)) as (post & ? & _). by exists post.
Qed.

Lemma search_from_span (r : Re.regex) (s : string) :
  forall (prev : option ascii) (m : string) (g : option string),
    Re.search_from r prev s = Some (m, g) ->
    (exists pre post, s = pre +:+ m +:+ post) /\ forall q, within q r m.
Proof.
  induction s as [|c s IH]; intros prev m g; cbn [Re.search_from].
  - destruct (Re.match_here r prev "") as [[m' g']|] eqn:Hhere; [|done].
    intros [= -> ->]. apply match_here_span in Hhere as [[post ->] Hq].
    split; [by exists "", post | done].
  - destruct (Re.match_here r prev (String c s)) as [[m' g']|] eqn:Hhere.
    + intros [= -> ->]. apply match_here_span in Hhere as [[post Hs] Hq].
      split; [by exists "", post | done].
    + intros [(pre & post & ->) Hq]%IH.
      split; [by exists (String c pre), post | done].
Qed.

Lemma startswith_append (m post : string) : Str.startswith m (m +:+ post) = true.
Proof.
  induction m as [|c m IH]; [done|].
  change (String c m +:+ post) with (String c (m +:+ post)).
  cbn [Str.startswith]. by rewrite Ascii.eqb_refl, IH.
Qed.

Lemma contains_middle (pre m post : string) :
  Str.contains m (pre +:+ m +:+ post) = true.
Proof.
  induction pre as [|c pre IH].
  - change ("" +:+ m +:+ post) with (m +:+ post).
    pose proof (startswith_append m post) as Hstart.
    destruct (m +:+ post); cbn [Str.contains]; by rewrite Hstart.
  - change (String c pre +:+ m +:+ post) with (String c (pre +:+ m +:+ post)).
    cbn [Str.contains]. rewrite IH. apply orb_true_r.
Qed.

(** What [re.search] finds is a piece of the text, within the bounds of
    the pattern for any class of characters. *)
Lemma search_span (r : Re.regex) (s m : string) :
  Re.search r s = Some m ->
  Str.contains m s = true /\ forall q, within q r m.
Proof.
  unfold Re.search. destruct (Re.search_from r None s) as [[m' g]|] eqn:Hs; [|done].
  intros [= ->]. apply search_from_span in Hs as [(pre & post & ->) Hq].
  split; [apply contains_middle | done].
Qed.

Section Contact.

Variable nlp : option (string -> list string).
Variable current_year : Z.

Lemma parse_text_email (raw_text : string) :
  parse_text nlp current_year raw_text !! "Email"
  = Some (VStr (default "Not Found"
                        (Re.search email_pattern (clean_text (Some raw_text))))).
Proof.
  unfold parse_text. cbv zeta. repeat case_match; by simplify_map_eq.
Qed.

Lemma parse_text_phone (raw_text : string) :
  parse_text nlp current_year raw_text !! "Phone"
  = Some (VStr (default "Not Found"
                        (Re.search phone_pattern (clean_text (Some raw_text))))).
Proof.
  unfold parse_text. cbv zeta. repeat case_match; by simplify_map_eq.
Qed.

(** X18: the Email of a result is ["Not Found"] or a piece of the
    normalized text that holds exactly one [@], a dot, no white space and
    six characters at least. *)
Theorem X18_email_field (raw_text : string) :
  raw_text <> "" ->
  exists email,
    parse nlp current_year (Some raw_text) !! "Email" = Some (VStr email)
    /\ (email = "Not Found"
        \/ Str.contains email (clean_text (Some raw_text)) = true
           /\ count_class (Chr.one "@") email = 1
           /\ 1 <= count_class (Chr.one ".") email
           /\ count_class Chr.space email = 0
           /\ 6 <= String.length email).
Proof.
  intros Hne.
  assert (Hparse : parse nlp current_year (Some raw_text)
                   = parse_text nlp current_year raw_text) by by destruct raw_text.
  rewrite Hparse, parse_text_email.
  destruct (Re.search email_pattern _) as [m|] eqn:Hsearch;
    eexists; (split; [done|]); [right | by left].
  apply search_span in Hsearch as [Hin Hq]. split; [exact Hin|].
  destruct (Hq (Chr.one "@")) as [Hat1 Hat2].
  destruct (Hq (Chr.one ".")) as [Hdot _].
  destruct (Hq Chr.space) as [_ Hsp].
  destruct (Hq (fun _ => true)) as [Hlen _]. rewrite count_class_length in Hlen.
  specialize (Hat2 1 ltac:(by vm_compute)). specialize (Hsp 0 ltac:(by vm_compute)).
  change (least (Chr.one "@") email_pattern) with 1 in Hat1.
  change (least (Chr.one ".") email_pattern) with 1 in Hdot.
  change (least (fun _ => true) email_pattern) with 6 in Hlen.
  cbn [default from_option].
  split; [exact (Nat.le_antisymm _ _ Hat2 Hat1)|]. split; [exact Hdot|].
  split; [exact (Nat.le_antisymm _ _ Hsp (Nat.le_0_l _)) | exact Hlen].
Qed.

(** X19: the Phone of a result is ["Not Found"] or a piece of the
    normalized text with ten to thirteen digits and nineteen characters at
    most. *)
Theorem X19_phone_field (raw_text : string) :
  raw_text <> "" ->
  exists phone,
    parse nlp current_year (Some raw_text) !! "Phone" = Some (VStr phone)
    /\ (phone = "Not Found"
        \/ Str.contains phone (clean_text (Some raw_text)) = true
           /\ 10 <= count_class Chr.digit phone <= 13
           /\ String.length phone <= 19).
Proof.
  intros Hne.
  assert (Hparse : parse nlp current_year (Some raw_text)
                   = parse_text nlp current_year raw_text) by by destruct raw_text.
  rewrite Hparse, parse_text_phone.
  destruct (Re.search phone_pattern _) as [m|] eqn:Hsearch;
    eexists; (split; [done|]); [right | by left].
  apply search_span in Hsearch as [Hin Hq]. split; [exact Hin|].
  destruct (Hq Chr.digit) as [Hd1 Hd2].
  destruct (Hq (fun _ => true)) as [_ Hlen]. rewrite count_class_length in Hlen.
  specialize (Hd2 13 ltac:(by vm_compute)). specialize (Hlen 19 ltac:(by vm_compute)).
  change (least Chr.digit phone_pattern) with 10 in Hd1.
  cbn [default from_option]. split; [split; [exact Hd1 | exact Hd2] | exact Hlen].
Qed.

End Contact.

Lemma X18_witness :
  scenario <> ""
  /\ exists email,
       parse None 2024 (Some scenario) !! "Email" = Some (VStr email)
       /\ (email = "Not Found"
           \/ Str.contains email (clean_text (Some scenario)) = true
              /\ count_class (Chr.one "@") email = 1
              /\ 1 <= count_class (Chr.one ".") email
              /\ count_class Chr.space email = 0
              /\ 6 <= String.length email).
Proof. split; [done|]. by apply X18_email_field. Defined.

Lemma X19_witness :
  scenario <> ""
  /\ exists phone,
       parse None 2024 (Some scenario) !! "Phone" = Some (VStr phone)
       /\ (phone = "Not Found"
           \/ Str.contains phone (clean_text (Some scenario)) = true
              /\ 10 <= count_class Chr.digit phone <= 13
              /\ String.length phone <= 19).
Proof. split; [done|]. by apply X19_phone_field. Defined.

(** ** The name *)

Section Name.

Variable nlp : option (string -> list string).
Variable current_year : Z.

Lemma parse_text_name (raw_text : string) :
  parse_text nlp current_year raw_text !! "Full Name"
  = Some (VStr (default "Not Found"
                        (find_name (Str.split_lines (clean_text (Some raw_text)))))).
Proof.
  unfold parse_text. cbv zeta. repeat case_match; by simplify_map_eq.
Qed.

(** X20: the name is looked for in the five leading lines only.  It is
    the first of them that, once stripped, has more than two characters, no
    [@] and no "resume" in any case; the Full Name is that stripped line, or
    ["Not Found"] when none of the five will do, whatever follows. *)
Theorem X20_full_name (raw_text : string) :
  raw_text <> "" ->
  let lines := Str.split_lines (clean_text (Some raw_text)) in
  exists name,
    parse nlp current_year (Some raw_text) !! "Full Name" = Some (VStr name)
    /\ ((name = "Not Found"
         /\ Forall (fun line => name_candidate line = false) (take 5 lines))
        \/ exists (i : nat) (line : string),
             i < 5 /\ lines !! i = Some line /\ name = Str.strip line
             /\ 2 < String.length name
             /\ Str.contains "@" name = false
             /\ Str.contains "resume" (Str.lower name) = false
             /\ Forall (fun earlier => name_candidate earlier = false)
                       (take i lines)).
Proof.
  intros Hne. cbv zeta.
  assert (Hparse : parse nlp current_year (Some raw_text)
                   = parse_text nlp current_year raw_text) by by destruct raw_text.
  rewrite Hparse, parse_text_name. unfold find_name.
  set (lines := Str.split_lines (clean_text (Some raw_text))).
  change (firstn 5 lines) with (take 5 lines).
  destruct (List.find name_candidate (take 5 lines)) as [line|] eqn:Hfind;
    eexists; (split; [done|]); cbn [fmap option_fmap option_map default from_option].
  - right. apply find_first in Hfind as (pre & post & Htake & Hcand & Hpre).
    assert (Hlen : length pre < 5).
    { pose proof (length_take lines 5) as Hl. rewrite Htake, length_app in Hl.
      cbn [length] in Hl. lia. }
    assert (Hline : lines !! length pre = Some line).
    { rewrite <- (lookup_take_lt lines 5) by done.
      rewrite Htake. by apply list_lookup_middle. }
    assert (Hearlier : take (length pre) lines = pre).
    { transitivity (take (length pre) (take 5 lines)).
      - rewrite take_take. f_equal. lia.
      - rewrite Htake. apply take_app_length. }
    exists (length pre), line. rewrite Hearlier.
    unfold name_candidate in Hcand. cbv zeta in Hcand.
    apply andb_prop in Hcand as [[Hlong Hres]%andb_prop Hat].
    apply Nat.ltb_lt in Hlong. apply negb_true_iff in Hres, Hat.
    by repeat split.
  - left. split; [done|]. apply Forall_forall. intros line Hin.
    apply (find_none _ _ Hfind). by apply list_elem_of_In.
Qed.

End Name.

Lemma X20_witness :
  ("Resume" +:+ nl +:+ "jane@x.org" +:+ nl +:+ "Jane Roe") <> ""
  /\ exists name,
       parse None 2024 (Some ("Resume" +:+ nl +:+ "jane@x.org" +:+ nl +:+ "Jane Roe"))
         !! "Full Name" = Some (VStr name)
       /\ ((name = "Not Found"
            /\ Forall (fun line => name_candidate line = false)
                      (take 5 (Str.split_lines (clean_text
                         (Some ("Resume" +:+ nl +:+ "jane@x.org" +:+ nl +:+ "Jane Roe"))))))
           \/ exists (i : nat) (line : string),
                i < 5
                /\ Str.split_lines (clean_text
                     (Some ("Resume" +:+ nl +:+ "jane@x.org" +:+ nl +:+ "Jane Roe")))
                     !! i = Some line
                /\ name = Str.strip line
                /\ 2 < String.length name
                /\ Str.contains "@" name = false
                /\ Str.contains "resume" (Str.lower name) = false
                /\ Forall (fun earlier => name_candidate earlier = false)
                          (take i (Str.split_lines (clean_text
                             (Some ("Resume" +:+ nl +:+ "jane@x.org" +:+ nl
                                    +:+ "Jane Roe")))))).
Proof. split; [done|]. by apply X20_full_name. Defined.

(** ** Headers: the test of the loop and the description agree *)

Lemma space_lower (c : ascii) : Chr.space (Chr.lower c) = Chr.space c.
Proof. destruct c as [[] [] [] [] [] [] [] []]; reflexivity. Qed.

Lemma lower_lstrip (s : string) :
  Str.lower (Str.lstrip s) = Str.lstrip (Str.lower s).
Proof.
  induction s as [|c s IH]; [done|]. cbn [Str.lstrip Str.lower].
  rewrite space_lower. by destruct (Chr.space c).
Qed.

Lemma lower_rstrip (s : string) :
  Str.lower (Str.rstrip s) = Str.rstrip (Str.lower s).
Proof.
  induction s as [|c s IH]; [done|]. cbn [Str.rstrip Str.lower].
  rewrite <- IH, space_lower.
  destruct (Str.rstrip s); [by destruct (Chr.space c) | done].
Qed.

Lemma lower_strip (s : string) : Str.lower (Str.strip s) = Str.strip (Str.lower s).
Proof. unfold Str.strip. by rewrite lower_rstrip, lower_lstrip. Qed.

Lemma count_tokens_lstrip (s : string) :
  Str.count_tokens false (Str.lstrip s) = Str.count_tokens false s.
Proof.
  induction s as [|c s IH]; [done|]. cbn [Str.lstrip Str.count_tokens].
  destruct (Chr.space c) eqn:Hc; [done|]. cbn [Str.count_tokens]. by rewrite Hc.
Qed.

Lemma count_tokens_rstrip (s : string) :
  forall inside, Str.count_tokens inside (Str.rstrip s) = Str.count_tokens inside s.
Proof.
  induction s as [|c s IH]; intros inside; [done|].
  cbn [Str.rstrip Str.count_tokens].
  destruct (Str.rstrip s) as [|d r] eqn:Hr.
  - destruct (Chr.space c) eqn:Hc.
    + by rewrite <- IH.
    + cbn [Str.count_tokens]. by rewrite Hc, <- IH.
  - cbn [Str.count_tokens]. rewrite <- !IH. cbn [Str.count_tokens]. done.
Qed.

Lemma split_len_strip (s : string) : Str.split_len (Str.strip s) = Str.split_len s.
Proof.
  unfold Str.split_len, Str.strip. by rewrite count_tokens_rstrip, count_tokens_lstrip.
Qed.

Lemma keyword_ok_inv (k : string) :
  keyword_ok k = true ->
  exists a k', k = String a k' /\ Chr.space a = false
               /\ Str.ends Chr.space k = false.
Proof.
  unfold keyword_ok. intros [[Hne Hb]%andb_prop He]%andb_prop.
  destruct k as [|a k']; [done|]. exists a, k'.
  apply negb_true_iff in Hb, He. by cbn in Hb.
Qed.

Lemma startswith_space (k : string) (c : ascii) (s : string) :
  keyword_ok k = true -> Chr.space c = true ->
  Str.startswith k (String c s) = false.
Proof.
  intros (a & k' & -> & Ha & _)%keyword_ok_inv Hc. cbn [Str.startswith].
  destruct (Ascii.eqb_spec a c) as [-> | _]; [congruence | done].
Qed.

Lemma contains_lstrip (k s : string) :
  keyword_ok k = true -> Str.contains k (Str.lstrip s) = Str.contains k s.
Proof.
  intros Hk. induction s as [|c s IH]; [done|]. cbn [Str.lstrip].
  destruct (Chr.space c) eqn:Hc; [|done].
  rewrite IH. cbn [Str.contains]. by rewrite startswith_space.
Qed.

(** A text that does not end in white space begins [rstrip s] when it
    begins [s]. *)
Lemma startswith_rstrip (s : string) :
  forall k, Str.ends Chr.space k = false ->
            Str.startswith k (Str.rstrip s) = Str.startswith k s.
Proof.
  induction s as [|c s IH]; intros k Hk; [done|].
  destruct k as [|a k']; [done|].
  assert (Hk' : Str.ends Chr.space k' = false) by (by destruct k').
  specialize (IH k' Hk'). cbn [Str.rstrip].
  destruct (Str.rstrip s) as [|d r] eqn:Hr.
  - destruct (Chr.space c) eqn:Hc.
    + cbn [Str.startswith].
      destruct (Ascii.eqb_spec a c) as [-> | _]; [|done]. cbn [andb].
      destruct k' as [|b k'']; [cbn [Str.ends] in Hk; congruence|].
      by rewrite <- IH.
    + cbn [Str.startswith]. by rewrite <- IH.
  - cbn [Str.startswith]. by rewrite IH.
Qed.

Lemma contains_rstrip (k s : string) :
  keyword_ok k = true -> Str.contains k (Str.rstrip s) = Str.contains k s.
Proof.
  intros Hk. destruct (keyword_ok_inv k Hk) as (a & k' & Hka & _ & Hend).
  assert (Hnil : Str.contains k "" = false) by (by rewrite Hka).
  induction s as [|c s IH]; [done|].
  pose proof (startswith_rstrip (String c s) k Hend) as Hstart.
  cbn [Str.rstrip] in *. cbn [Str.contains]. rewrite <- IH, <- Hstart.
  destruct (Str.rstrip s) as [|d r] eqn:Hr.
  - subst k. by destruct (Chr.space c).
  - done.
Qed.

Lemma contains_strip (k s : string) :
  keyword_ok k = true -> Str.contains k (Str.strip s) = Str.contains k s.
Proof.
  intros Hk. unfold Str.strip. by rewrite contains_rstrip, contains_lstrip.
Qed.

Lemma keywords_ok (tag : string) (keywords : list string) (k : string) :
  In (tag, keywords) sections_keywords -> In k keywords -> keyword_ok k = true.
Proof.
  unfold sections_keywords. cbn [In]. intros Htag.
  repeat (destruct Htag as [[= <- <-] | Htag];
          [cbn [In]; intros Hk; repeat (destruct Hk as [<- | Hk]; [done|]);
           destruct Hk|]).
  destruct Htag.
Qed.

(** For a section of the table, the test of the loop on the stripped and
    lowercased line is the description on the line. *)
Lemma header_test_said (line tag : string) (keywords : list string) :
  In (tag, keywords) sections_keywords ->
  header_test (Str.lower (Str.strip line)) keywords = true
  <-> said_header line keywords.
Proof.
  intros Htag. unfold header_test, said_header.
  rewrite lower_strip, split_len_strip, andb_true_iff, existsb_exists, Nat.ltb_lt.
  split; intros [(k & Hk & Hin) Hlen]; (split; [exists k; split; [done|] | done]).
  - by rewrite <- (contains_strip k) by by eapply keywords_ok.
  - by rewrite contains_strip by by eapply keywords_ok.
Qed.

Lemma find_first_conv {A} (f : A -> bool) (pre post : list A) (x : A) :
  f x = true -> Forall (fun y => f y = false) pre ->
  List.find f (pre ++ x :: post) = Some x.
Proof.
  intros Hx. induction 1 as [|y pre Hy _ IH]; cbn [app List.find].
  - by rewrite Hx.
  - by rewrite Hy.
Qed.

(** A line is the header of a section exactly when that section is the
    first of the table the description makes it a header of. *)
Lemma header_line_said (line tag : string) :
  header_line line = Some tag
  <-> exists pre kws post,
        sections_keywords = (pre ++ (tag, kws) :: post)%list
        /\ said_header line kws
        /\ Forall (fun '(_, kws') => ~ said_header line kws') pre.
Proof.
  unfold header_line, header_of. split.
  - destruct (List.find _ _) as [[t kws]|] eqn:Hfind; [|done].
    intros [= <-]. apply find_first in Hfind as (pre & post & Hl & Hx & Hpre).
    exists pre, kws, post. split; [done|]. split.
    + apply (header_test_said line t); [|done].
      rewrite Hl. apply in_elt.
    + apply Forall_forall. intros [t' kws'] Hin Hsaid.
      rewrite Forall_forall in Hpre. specialize (Hpre _ Hin). cbn in Hpre.
      apply (header_test_said line t') in Hsaid; [congruence|].
      rewrite Hl. apply in_or_app. left. by apply list_elem_of_In.
  - intros (pre & kws & post & Hl & Hsaid & Hpre).
    rewrite Hl, (find_first_conv _ pre post (tag, kws)); [done| |].
    + apply (header_test_said line tag); [|done]. rewrite Hl. apply in_elt.
    + apply Forall_forall. intros [t' kws'] Hin.
      rewrite Forall_forall in Hpre. specialize (Hpre _ Hin). cbn in Hpre.
      destruct (header_test _ kws') eqn:Htest; [|done]. exfalso. apply Hpre.
      apply (header_test_said line t'); [|done].
      rewrite Hl. apply in_or_app. left. by apply list_elem_of_In.
Qed.

Lemma header_line_none (line : string) :
  header_line line = None
  <-> Forall (fun '(_, kws) => ~ said_header line kws) sections_keywords.
Proof.
  unfold header_line, header_of. split.
  - destruct (List.find _ _) as [[t kws]|] eqn:Hfind; [done|]. intros _.
    apply Forall_forall. intros [t kws] Hin Hsaid.
    apply list_elem_of_In in Hin.
    pose proof (find_none _ _ Hfind _ Hin) as Htest. cbn in Htest.
    apply (header_test_said line t) in Hsaid; [congruence | done].
  - intros Hall. destruct (List.find _ _) as [[t kws]|] eqn:Hfind; [|done].
    apply find_some in Hfind as [Hin Htest].
    rewrite Forall_forall in Hall. specialize (Hall _ (proj2 (list_elem_of_In _ _) Hin)).
    cbn in Hall. exfalso. apply Hall. by apply (header_test_said line t).
Qed.

(** C4: every line is received by at most one section.  The table holds,
    for the five tags and nothing else, the stripped lines each tag
    received, in order.  A line is a header exactly when its lowercased
    form holds a keyword of some section and has fewer than five tokens;
    the first such section of the table then becomes the current one, and
    the line itself goes to no section.  A line before the first header
    goes to no section, and every other line that is not blank goes to the
    section in force, and to that one only. *)
Theorem C4_one_section_per_line (lines : list string) :
  let st := segment lines in
  Forall (fun tag => section_text st !! tag = Some (content_of lines tag)) tags
  /\ dom (section_text st) = list_to_set tags
  /\ current_section st = active_section lines
  /\ (forall (i : nat) (tag1 tag2 : string),
        i ∈ owned lines tag1 -> i ∈ owned lines tag2 -> tag1 = tag2)
  /\ (forall (line tag : string),
        header_line line = Some tag ->
        exists pre kws post,
          sections_keywords = (pre ++ (tag, kws) :: post)%list
          /\ header_test (Str.lower (Str.strip line)) kws = true
          /\ Forall (fun '(_, kws') =>
                       header_test (Str.lower (Str.strip line)) kws' = false) pre)
  /\ (forall (i : nat) (line tag : string),
        lines !! i = Some line -> header_line line = Some tag ->
        active_section (take (S i) lines) = Some tag
        /\ owner lines i = None
        /\ forall tag' : string, i ∉ owned lines tag')
  /\ (forall i : nat,
        active_section (take i lines) = None ->
        owner lines i = None /\ forall tag' : string, i ∉ owned lines tag')
  /\ (forall (i : nat) (line : string),
        lines !! i = Some line -> header_line line = None ->
        Str.strip line <> "" ->
        owner lines i = active_section (take i lines))
  /\ (forall (line tag : string),
        header_line line = Some tag
        <-> exists pre kws post,
              sections_keywords = (pre ++ (tag, kws) :: post)%list
              /\ said_header line kws
              /\ Forall (fun '(_, kws') => ~ said_header line kws') pre)
  /\ (forall line : string,
        header_line line = None
        <-> Forall (fun '(_, kws) => ~ said_header line kws) sections_keywords)
  /\ (forall (i : nat) (tag : string),
        i ∈ owned lines tag
        <-> exists line,
              lines !! i = Some line /\ header_line line = None
              /\ Str.strip line <> ""
              /\ active_section (take i lines) = Some tag).
Proof.
  cbv zeta. destruct (seg_inv_segment lines) as [Hcur Htext].
  assert (Hno : forall i, owner lines i = None -> forall tag', i ∉ owned lines tag').
  { intros i Hi tag' [Hown _]%list_elem_of_filter. congruence. }
  split; [|split; [|split; [|split; [|split; [|split; [|split; [|split;
    [|split; [|split]]]]]]]]].
  - apply Forall_forall. intros tag Htag. by rewrite Htext, decide_True.
  - apply set_eq. intros tag.
    rewrite elem_of_dom, Htext, elem_of_list_to_set.
    case_decide; split; (done || by intros []).
  - done.
  - intros i tag1 tag2 [H1 _]%list_elem_of_filter [H2 _]%list_elem_of_filter.
    congruence.
  - intros line tag. unfold header_line, header_of.
    destruct (List.find _ _) as [[t kws]|] eqn:Hfind; [|done].
    intros [= <-]. apply find_first in Hfind as (pre & post & Hl & Hx & Hpre).
    exists pre, kws, post. split; [done|]. split; [done|].
    eapply Forall_impl; [apply Hpre|]. by intros [t' kws'].
  - intros i line tag Hline Hhead.
    assert (Hown : owner lines i = None).
    { unfold owner. by rewrite Hline, Hhead. }
    split; [|split; [done | by apply Hno]].
    rewrite (take_S_r _ _ _ Hline), active_section_snoc. by rewrite Hhead.
  - intros i Hact.
    assert (Hown : owner lines i = None).
    { unfold owner. rewrite Hact. by repeat case_match. }
    split; [done | by apply Hno].
  - intros i line Hline Hhead Hstrip. unfold owner. rewrite Hline, Hhead.
    by destruct (Str.strip line).
  - apply header_line_said.
  - apply header_line_none.
  - intros i tag. unfold owned. rewrite list_elem_of_filter, elem_of_seq. split.
    + intros [Hown _]. by apply owner_Some.
    + intros (line & Hline & Hhead & Hstrip & Hact). split.
      * unfold owner. rewrite Hline, Hhead. by destruct (Str.strip line).
      * apply lookup_lt_Some in Hline. lia.
Qed.

Lemma C4_witness :
  (said_header "EXPERIENCE"
     ["experience"; "work history"; "employment"; "internships"; "career";
      "professional experience"]
   /\ header_line "EXPERIENCE" = Some "experience")
  /\ ["EXPERIENCE"; "Led team 2015"] !! 1%nat = Some "Led team 2015"
  /\ header_line "Led team 2015" = None
  /\ Str.strip "Led team 2015" <> ""
  /\ active_section (take 1 ["EXPERIENCE"; "Led team 2015"]) = Some "experience"
  /\ owner ["EXPERIENCE"; "Led team 2015"] 1 = Some "experience"
  /\ 1 ∈ owned ["EXPERIENCE"; "Led team 2015"] "experience"
  /\ section_text (segment ["EXPERIENCE"; "Led team 2015"]) !! "experience"
     = Some ["Led team 2015"].
Proof.
  destruct (C4_one_section_per_line ["EXPERIENCE"; "Led team 2015"])
    as (Htable & _ & _ & _ & _ & Hswitch & _ & Hother & Hsaid & _ & Howned).
  assert (Hkw : said_header "EXPERIENCE"
            ["experience"; "work history"; "employment"; "internships"; "career";
             "professional experience"]).
  { split; [exists "experience"; split; [by left | reflexivity] | vm_compute; lia]. }
  assert (Hhead : header_line "EXPERIENCE" = Some "experience").
  { apply Hsaid.
    exists [("education", ["education"; "academic"; "qualifications";
                           "university"; "college"]);
            ("skills", ["skills"; "technologies"; "technical skills";
                        "competencies"; "stack"])].
    do 2 eexists. split; [reflexivity|]. split; [exact Hkw|].
    repeat constructor; intros [(k & Hin & Hocc) _]; cbn [In] in Hin;
      repeat (destruct Hin as [<- | Hin]; [by vm_compute in Hocc|]);
      destruct Hin. }
  assert (Hline : ["EXPERIENCE"; "Led team 2015"] !! 1%nat = Some "Led team 2015")
    by done.
  assert (Hplain : header_line "Led team 2015" = None) by by vm_compute.
  assert (Hstrip : Str.strip "Led team 2015" <> "") by done.
  assert (Hact : active_section (take 1 ["EXPERIENCE"; "Led team 2015"])
                 = Some "experience").
  { by apply (Hswitch 0 "EXPERIENCE" "experience"). }
  split; [by split|]. do 3 (split; [done|]). split; [exact Hact|].
  split; [by rewrite (Hother 1 "Led team 2015" Hline Hplain Hstrip)|].
  split; [apply Howned; by exists "Led team 2015"|].
  rewrite Forall_forall in Htable.
  assert (Htag : "experience" ∈ tags).
  { apply list_elem_of_In. unfold tags. cbn. tauto. }
  rewrite (Htable "experience" Htag). by vm_compute.
Defined.
